(** * StudentAutocommitter: scheduling, retry queue and statistics

    A shallow embedding of [src/error_handler.py] (class [ErrorHandler]) and
    [src/scheduler.py] (class [Scheduler]), followed by the properties of the
    planning, retry and statistics code.

    Conventions of the embedding:
    - a [datetime] is the number of microseconds since midnight of proleptic
      ordinal day 0, so that comparison of datetimes is comparison of
      integers and adding a [timedelta] is addition;
    - the JSON files are the decoded values they hold (a list of items, a
      dictionary of counters); reading and writing them always succeeds;
    - [datetime.now()] is read once per operation and passed as [now];
    - the logger is a list of records, oldest first. *)

From stdpp Require Import base list gmap strings sorting.
From Stdlib Require Import ZArith Lia Ascii.

Open Scope Z_scope.

(** ** Python helpers *)

Module Py.

(** [l[k:]] with Python's treatment of a negative start. *)
Definition slice_from {A : Type} (k : Z) (l : list A) : list A :=
  let n := Z.of_nat (length l) in
  let start := if bool_decide (k < 0) then Z.max (n + k) 0 else Z.min k n in
  drop (Z.to_nat start) l.

(** [len(l)] as a Python integer. *)
Definition len {A : Type} (l : list A) : Z := Z.of_nat (length l).

(** [timedelta(minutes=m)] for an integer [m], in microseconds. *)
Definition minutes (m : Z) : Z := m * 60000000.

(** [dict.get(key, 0)] on a dictionary of integers. *)
Definition get0 (key : string) (d : gmap string Z) : Z := default 0 (d !! key).

End Py.

(** ** Logger *)

Inductive Level := INFO | WARNING | ERROR.

Record LogRecord := Log { lr_level : Level; lr_message : string; lr_args : list Z }.

#[global] Instance Level_eq_dec : EqDecision Level.
Proof. solve_decision. Defined.

#[global] Instance LogRecord_eq_dec : EqDecision LogRecord.
Proof. solve_decision. Defined.

(** ** Configuration values read through [config.get], defaults applied *)

Record Config := {
  retry_attempts : Z;          (* error_handling.retry_attempts, default 3 *)
  retry_delay_minutes : Z;     (* error_handling.retry_delay_minutes, default 30 *)
  queue_failed_commits : bool; (* error_handling.queue_failed_commits, default True *)
  max_queue_size : Z;          (* error_handling.max_queue_size, default 50 *)
  max_stored_errors : Z;       (* error_handling.max_stored_errors, default 100 *)
  min_commits_per_day : Z;     (* commit_settings.min_commits_per_day, default 1 *)
  max_commits_per_day : Z;     (* commit_settings.max_commits_per_day, default 5 *)
  active_hours_start : Z;      (* commit_settings.active_hours.start, default 9 *)
  active_hours_end : Z;        (* commit_settings.active_hours.end, default 21 *)
  weekend_activity : bool;     (* commit_settings.weekend_activity, default False *)
  random_delays : bool;        (* stealth_mode.random_delays, default True *)
  vary_commit_times : bool     (* stealth_mode.vary_commit_times, default True *)
}.

Definition default_config : Config := {|
  retry_attempts := 3; retry_delay_minutes := 30; queue_failed_commits := true;
  max_queue_size := 50; max_stored_errors := 100;
  min_commits_per_day := 1; max_commits_per_day := 5;
  active_hours_start := 9; active_hours_end := 21;
  weekend_activity := false; random_delays := true; vary_commit_times := true |}.

(** ** [ErrorHandler] *)

Module ErrorHandler.

(** A unit of work: the dictionary handed to [handle_commit_error] and
    replayed to the retry callback. *)
Definition CommitData := list (string * string).

Record ErrorInfo := {
  ei_timestamp : Z;
  ei_error_type : string;
  ei_error_message : string;
  ei_commit_data : option CommitData
}.

Record PendingItem := {
  added_at : Z;
  commit_data : CommitData;
  error_info : ErrorInfo;
  retry_count : Z;
  next_retry : Z;
  max_retries : Z
}.

#[global] Instance ErrorInfo_eq_dec : EqDecision ErrorInfo.
Proof. solve_decision. Defined.

#[global] Instance PendingItem_eq_dec : EqDecision PendingItem.
Proof. solve_decision. Defined.

(** The three data files and the log. *)
Record Store := {
  pending_file : list PendingItem;
  errors_file : list ErrorInfo;
  stats_file : gmap string Z;
  log : list LogRecord
}.

(** [_init_data_files]: the files of a fresh installation.  The JSON null
    stored under [last_error] is never read or written again and is left
    out of the dictionary of integers. *)
Definition default_stats (now : Z) : gmap string Z :=
  <["total_commits" := 0]> (<["successful_commits" := 0]>
  (<["failed_commits" := 0]> (<["pending_commits" := 0]>
  (<["start_time" := now]> ∅)))).


(** [_update_stats(successful, failed, count)] *)
Definition _update_stats (now : Z) (successful failed : bool) (count : Z)
    (stats : gmap string Z) : gmap string Z :=
  let stats := <["total_commits" := Py.get0 "total_commits" stats + count]> stats in
  let stats :=
    if successful
    then <["successful_commits" := Py.get0 "successful_commits" stats + count]> stats
    else stats in
  let stats :=
    if failed
    then <["failed_commits" := Py.get0 "failed_commits" stats + count]> stats
    else stats in
  <["last_update" := now]> stats.

(** [_update_pending_stats(pending_count)] *)
Definition _update_pending_stats (now : Z) (pending_count : Z)
    (stats : gmap string Z) : gmap string Z :=
  <["last_update" := now]> (<["pending_commits" := pending_count]> stats).

(** [_save_error(error_info)] *)
Definition _save_error (cfg : Config) (error_info : ErrorInfo)
    (errors : list ErrorInfo) : list ErrorInfo :=
  let errors := errors ++ [error_info] in
  if bool_decide (max_stored_errors cfg < Py.len errors)
  then Py.slice_from (- max_stored_errors cfg) errors
  else errors.

(** What [handle_commit_error] and [_add_to_pending_queue] return. *)
Inductive HandleResult :=
| AddedToQueue (queue_position : Z) (next_retry_at : Z)
| NotHandled (error : ErrorInfo).

(** [_add_to_pending_queue(commit_data, error_info)] *)
Definition _add_to_pending_queue (cfg : Config) (now : Z)
    (cd : CommitData) (ei : ErrorInfo) (s : Store) : Store * HandleResult :=
  let pending_item := {|
    added_at := now;
    commit_data := cd;
    error_info := ei;
    retry_count := 0;
    next_retry := now + Py.minutes (retry_delay_minutes cfg);
    max_retries := retry_attempts cfg |} in
  let pending := pending_file s ++ [pending_item] in
  let max_size := max_queue_size cfg in
  let pending :=
    if bool_decide (max_size < Py.len pending)
    then Py.slice_from (- max_size) pending
    else pending in
  ({| pending_file := pending;
      errors_file := errors_file s;
      stats_file := _update_pending_stats now (Py.len pending) (stats_file s);
      log := log s ++
        [Log INFO "Added to pending queue. Total pending: {}" [Py.len pending]] |},
   AddedToQueue (Py.len pending) (next_retry pending_item)).



(** The counters returned by [process_pending_commits]. *)
Record SweepStats := {
  processed : Z;
  succeeded : Z;
  failed : Z;
  removed : Z
}.

Definition no_stats : SweepStats :=
  {| processed := 0; succeeded := 0; failed := 0; removed := 0 |}.

(** Outcome of one call of [retry_callback]: a dictionary whose ["success"]
    entry is read, or an exception. *)
Inductive CallbackResult :=
| Returned (success : bool)
| Raised.

Section Sweep.

(** The world the callback acts on (the repository), threaded through
    its calls. *)
Context {World : Type}.
Variable retry_callback : World -> CommitData -> CallbackResult * World.

(** The variables of the loop in [process_pending_commits], with the
    arguments of the callback's calls in order. *)
Record LoopState := {
  ls_world : World;
  ls_new_pending : list PendingItem;
  ls_stats : SweepStats;
  ls_log : list LogRecord;
  ls_calls : list CommitData
}.

Definition with_retry (item : PendingItem) (count next : Z) : PendingItem :=
  {| added_at := added_at item; commit_data := commit_data item;
     error_info := error_info item; retry_count := count;
     next_retry := next; max_retries := max_retries item |}.

(** The body of [for item in pending]. *)
Definition process_item (cfg : Config) (now : Z)
    (st : LoopState) (item : PendingItem) : LoopState :=
  if bool_decide (next_retry item <= now) then
    let stats := ls_stats st in
    let n_processed := processed stats + 1 in
    let calls := ls_calls st ++ [commit_data item] in
    match retry_callback (ls_world st) (commit_data item) with
    | (Returned true, w) =>
        {| ls_world := w;
           ls_new_pending := ls_new_pending st;
           ls_stats := {| processed := n_processed;
                          succeeded := succeeded stats + 1;
                          failed := failed stats;
                          removed := removed stats + 1 |};
           ls_log := ls_log st ++
             [Log INFO "Retry succeeded for commit from {}" [added_at item]];
           ls_calls := calls |}
    | (Returned false, w) =>
        let count := retry_count item + 1 in
        if bool_decide (count < max_retries item) then
          {| ls_world := w;
             ls_new_pending := ls_new_pending st ++
               [with_retry item count (now + Py.minutes (retry_delay_minutes cfg))];
             ls_stats := {| processed := n_processed;
                            succeeded := succeeded stats;
                            failed := failed stats + 1;
                            removed := removed stats |};
             ls_log := ls_log st ++
               [Log WARNING "Retry failed, will retry later" []];
             ls_calls := calls |}
        else
          {| ls_world := w;
             ls_new_pending := ls_new_pending st;
             ls_stats := {| processed := n_processed;
                            succeeded := succeeded stats;
                            failed := failed stats + 1;
                            removed := removed stats + 1 |};
             ls_log := ls_log st ++
               [Log ERROR "Max retries reached, removing from queue" []];
             ls_calls := calls |}
    | (Raised, w) =>
        {| ls_world := w;
           ls_new_pending := ls_new_pending st ++ [item];
           ls_stats := {| processed := n_processed;
                          succeeded := succeeded stats;
                          failed := failed stats + 1;
                          removed := removed stats |};
           ls_log := ls_log st ++
             [Log ERROR "Error processing pending commit: {}" []];
           ls_calls := calls |}
    end
  else
    {| ls_world := ls_world st;
       ls_new_pending := ls_new_pending st ++ [item];
       ls_stats := ls_stats st;
       ls_log := ls_log st;
       ls_calls := ls_calls st |}.

Definition loop_init (w : World) (lg : list LogRecord) : LoopState :=
  {| ls_world := w; ls_new_pending := []; ls_stats := no_stats;
     ls_log := lg; ls_calls := [] |}.

Definition sweep_loop (cfg : Config) (now : Z) (st : LoopState)
    (pending : list PendingItem) : LoopState :=
  foldl (process_item cfg now) st pending.

(** What one call of [process_pending_commits] leaves behind. *)
Record SweepResult := {
  sr_store : Store;
  sr_world : World;
  sr_stats : SweepStats;
  sr_calls : list CommitData
}.

(** [process_pending_commits(retry_callback)] *)
Definition process_pending_commits (cfg : Config) (now : Z)
    (w : World) (s : Store) : SweepResult :=
  match pending_file s with
  | [] => {| sr_store := s; sr_world := w; sr_stats := no_stats; sr_calls := [] |}
  | pending =>
      let st := sweep_loop cfg now (loop_init w (log s)) pending in
      let new_pending := ls_new_pending st in
      let stats := _update_pending_stats now (Py.len new_pending) (stats_file s) in
      let stats :=
        if bool_decide (0 < succeeded (ls_stats st))
        then _update_stats now true false (succeeded (ls_stats st)) stats
        else stats in
      let stats :=
        if bool_decide (0 < failed (ls_stats st))
        then _update_stats now false true (failed (ls_stats st)) stats
        else stats in
      {| sr_store := {| pending_file := new_pending;
                        errors_file := errors_file s;
                        stats_file := stats;
                        log := ls_log st |};
         sr_world := ls_world st;
         sr_stats := ls_stats st;
         sr_calls := ls_calls st |}
  end.

(** Successive sweeps at the given times, each on what the previous one
    left; the result carries the calls of every sweep, in order. *)
Fixpoint sweeps (cfg : Config) (times : list Z) (w : World) (s : Store)
    : Store * World * list (list CommitData) :=
  match times with
  | [] => (s, w, [])
  | now :: rest =>
      let r := process_pending_commits cfg now w s in
      let '(s', w', calls) := sweeps cfg rest (sr_world r) (sr_store r) in
      (s', w', sr_calls r :: calls)
  end.

End Sweep.

(** [get_pending_commits()] *)
Definition get_pending_commits (s : Store) : list PendingItem := pending_file s.


(** [get_error_summary(limit)] *)
Definition get_error_summary (limit : Z) (s : Store) : list ErrorInfo :=
  Py.slice_from (- limit) (errors_file s).

End ErrorHandler.

(** ** [datetime] arithmetic used by the scheduler *)

Module Datetime.

Definition us_per_minute : Z := 60000000.
Definition us_per_hour : Z := 3600000000.
Definition us_per_day : Z := 86400000000.

(** Proleptic ordinal of the calendar day, and the fields of the time. *)
Definition toordinal (t : Z) : Z := t `div` us_per_day.
Definition hour (t : Z) : Z := (t `mod` us_per_day) `div` us_per_hour.
Definition minute (t : Z) : Z := (t `mod` us_per_hour) `div` us_per_minute.

(** [t.weekday()]: Monday is 0 and ordinal day 1 is a Monday. *)
Definition weekday (t : Z) : Z := (toordinal t + 6) `mod` 7.

(** [strftime('%A') in ['Saturday', 'Sunday']] *)
Definition is_weekend (t : Z) : bool :=
  bool_decide (weekday t = 5) || bool_decide (weekday t = 6).

(** [t.replace(hour=h, minute=0, second=0, microsecond=0)]; [ValueError]
    is [None]. *)
Definition replace_hour (t h : Z) : option Z :=
  if bool_decide (0 <= h <= 23)
  then Some (toordinal t * us_per_day + h * us_per_hour)
  else None.

(** [t.replace(minute=m)]; [ValueError] is [None]. *)
Definition replace_minute (t m : Z) : option Z :=
  if bool_decide (0 <= m <= 59)
  then Some (t - minute t * us_per_minute + m * us_per_minute)
  else None.

(** [timedelta / 2]: the quotient rounded to the nearest microsecond, ties
    to even. *)
Definition half (d : Z) : Z :=
  let q := d `div` 2 in
  let r := d `mod` 2 in
  if bool_decide (r = 1) && bool_decide (q `mod` 2 = 1) then q + 1 else q.

(** Midnight of ordinal day [d] plus a time of day. *)
Definition at_time (d h m : Z) : Z :=
  d * us_per_day + h * us_per_hour + m * us_per_minute.

End Datetime.

(** ** The [random] module *)

Module Random.

(** The generator is the stream of its future raw draws. *)
Definition Rng := nat -> Z.

Definition advance (g : Rng) : Rng := fun k => g (S k).

(** [random.randint(lo, hi)]: [ValueError] on an empty range is [None]. *)
Definition randint (lo hi : Z) (g : Rng) : option (Z * Rng) :=
  if bool_decide (lo <= hi)
  then Some (lo + g 0%nat `mod` (hi - lo + 1), advance g)
  else None.

Definition constant (z : Z) : Rng := fun _ => z.

(** A generator whose first draws are the given ones, then zeros. *)
Definition of_list (l : list Z) : Rng := fun k => default 0 (l !! k).

End Random.

(** ** [Scheduler] *)

Module Scheduler.

(** An entry of the process-wide [schedule] job list created by
    [schedule.every().day.at(time_str).do(..., scheduled_time=...)]. *)
Record Job := {
  job_at : Z * Z;              (* the "%H:%M" of the job *)
  job_scheduled_time : Z       (* the keyword argument *)
}.

(** An entry of [./data/pending_commits.json] as the scheduler writes it. *)
Record RetryItem := {
  scheduled_time : Z;
  error : string;
  retry_count : Z;
  next_retry : Z
}.

#[global] Instance RetryItem_eq_dec : EqDecision RetryItem.
Proof. solve_decision. Defined.

Record Stats := {
  commits_created : Z;
  last_commit_time : option Z;
  errors : Z;
  start_time : option Z
}.

(** The background thread, seen from [stop]: how many seconds after the
    stop signal its loop returns, [None] when it never does. *)
Record Thread := { exits_after : option Z }.

Record State := {
  is_running : bool;
  stop_event : bool;
  scheduler_thread : option Thread;
  stats : Stats;
  jobs : list Job;
  queue_file : option (list RetryItem);
  log : list LogRecord
}.

(** [__init__] *)
Definition init : State := {|
  is_running := false; stop_event := false; scheduler_thread := None;
  stats := {| commits_created := 0; last_commit_time := None; errors := 0;
              start_time := None |};
  jobs := []; queue_file := None; log := [] |}.

(** *** Planning *)

Section Planning.

(** [timedelta(minutes=interval * i)] in microseconds, where [interval]
    is the float [total_minutes / (num_commits - 1)]: the float
    arithmetic is a parameter, given the length of the window in
    microseconds, [num_commits] and [i]. *)
Variable float_offset : Z -> Z -> Z -> Z.

Definition clamp (start_time end_time commit_time : Z) : Z :=
  if bool_decide (commit_time < start_time) then start_time
  else if bool_decide (end_time < commit_time) then end_time
  else commit_time.

(** The body of [for i in range(num_commits)]. *)
Fixpoint spread (cfg : Config) (start_time end_time num_commits : Z)
    (indices : list Z) (g : Random.Rng) (times : list Z)
    : option (list Z * Random.Rng) :=
  match indices with
  | [] => Some (times, g)
  | i :: rest =>
      let commit_time :=
        start_time + float_offset (end_time - start_time) num_commits i in
      '(commit_time, g) ←
        (if vary_commit_times cfg
         then '(jitter, g') ← Random.randint (-15) 15 g;
              Some (commit_time + Py.minutes jitter, g')
         else Some (commit_time, g));
      spread cfg start_time end_time num_commits rest g
        (times ++ [clamp start_time end_time commit_time])
  end.

(** [_generate_commit_times(num_commits, start_hour, end_hour)]; an
    exception is [None]. *)
Definition _generate_commit_times (cfg : Config) (now : Z)
    (num_commits start_hour end_hour : Z) (g : Random.Rng)
    : option (list Z * Random.Rng) :=
  start_time ← Datetime.replace_hour now start_hour;
  end_time ← Datetime.replace_hour now end_hour;
  start_time ←
    (if bool_decide (start_time < now)
     then Datetime.replace_minute now (Datetime.minute now + 5)
     else Some start_time);
  if bool_decide (num_commits <= 0) then Some ([], g)
  else if bool_decide (num_commits = 1)
  then Some ([start_time + Datetime.half (end_time - start_time)], g)
  else
    '(times, g) ← spread cfg start_time end_time num_commits
                    (seqZ 0 num_commits) g [];
    Some (merge_sort Z.le times, g).

(** The body of [for commit_time in commit_times]. *)
Fixpoint schedule_all (cfg : Config) (commit_times : list Z)
    (g : Random.Rng) (js : list Job) : option (list Job * Random.Rng) :=
  match commit_times with
  | [] => Some (js, g)
  | commit_time :: rest =>
      '(commit_time, g) ←
        (if random_delays cfg
         then '(delay_minutes, g') ← Random.randint 0 30 g;
              Some (commit_time + Py.minutes delay_minutes, g')
         else Some (commit_time, g));
      schedule_all cfg rest g
        (js ++ [{| job_at := (Datetime.hour commit_time,
                              Datetime.minute commit_time);
                   job_scheduled_time := commit_time |}])
  end.

(** [_plan_daily_commits()]; an exception is [None]. *)
Definition _plan_daily_commits (cfg : Config) (now : Z)
    (g : Random.Rng) (s : State) : option (State * Random.Rng) :=
  if Datetime.is_weekend now && negb (weekend_activity cfg)
  then Some
    ({| is_running := is_running s; stop_event := stop_event s;
        scheduler_thread := scheduler_thread s; stats := stats s;
        jobs := jobs s; queue_file := queue_file s;
        log := log s ++
          [Log INFO "Skipping weekend (weekend_activity is False)" []] |}, g)
  else
    '(num_commits, g) ←
      Random.randint (min_commits_per_day cfg) (max_commits_per_day cfg) g;
    '(commit_times, g) ←
      _generate_commit_times cfg now num_commits
        (active_hours_start cfg) (active_hours_end cfg) g;
    '(js, g) ← schedule_all cfg commit_times g (jobs s);
    Some
      ({| is_running := is_running s; stop_event := stop_event s;
          scheduler_thread := scheduler_thread s; stats := stats s;
          jobs := js; queue_file := queue_file s;
          log := log s ++
            [Log INFO "Planning {} commits for {}" [num_commits];
             Log INFO "Scheduled {} commits for today"
               [Py.len commit_times]] |}, g).

End Planning.

(** The offset computed with exact rational arithmetic and rounded to the
    nearest microsecond, ties to even: what the float computation gives
    whenever it is exact. *)
Definition exact_offset (total num_commits i : Z) : Z :=
  let d := num_commits - 1 in
  let q := (total * i) `div` d in
  let r := (total * i) `mod` d in
  if bool_decide (d < 2 * r)
     || (bool_decide (2 * r = d) && bool_decide (q `mod` 2 = 1))
  then q + 1 else q.

(** *** Executing a scheduled job *)

(** Result of a call to a collaborator: a value or an exception with its
    [str()]. *)
Inductive Outcome (A : Type) :=
| Ok (a : A)
| Exn (message : string).
Arguments Ok {A} a.
Arguments Exn {A} message.

(** [{path: content}] *)
Definition Changes := list (string * string).

Section Jobs.

(** The world of the collaborators (working tree and repository). *)
Context {World : Type}.
(** [commit_gen.generate_changes(repo_path)] *)
Variable generate_changes : World -> Outcome Changes * World.
(** [commit_gen.generate_commit_message()] *)
Variable generate_commit_message : World -> Outcome string * World.
(** [git_ops.create_commit(changes, message)] *)
Variable create_commit : World -> Changes -> string -> Outcome string * World.

(** [_add_to_retry_queue(scheduled_time, error_msg)] *)
Definition _add_to_retry_queue (cfg : Config) (now : Z)
    (sched : Z) (error_msg : string) (s : State) : State :=
  let queue := default [] (queue_file s) in
  let queue := queue ++
    [{| scheduled_time := sched; error := error_msg; retry_count := 0;
        next_retry := now + Py.minutes (retry_delay_minutes cfg) |}] in
  let max_size := max_queue_size cfg in
  let queue :=
    if bool_decide (max_size < Py.len queue)
    then Py.slice_from (- max_size) queue
    else queue in
  {| is_running := is_running s; stop_event := stop_event s;
     scheduler_thread := scheduler_thread s; stats := stats s;
     jobs := jobs s; queue_file := Some queue;
     log := log s ++ [Log INFO "Added failed commit to retry queue" []] |}.

(** [_handle_commit_error(error, scheduled_time)] *)
Definition _handle_commit_error (cfg : Config) (now : Z)
    (error_msg : string) (sched : option Z) (s : State) : State :=
  match queue_failed_commits cfg, sched with
  | true, Some t => _add_to_retry_queue cfg now t error_msg s
  | _, _ => s
  end.

(** The [except Exception] branch of [_create_scheduled_commit]. *)
Definition on_error (cfg : Config) (now : Z) (error_msg : string)
    (sched : option Z) (s : State) : State :=
  _handle_commit_error cfg now error_msg sched
    {| is_running := is_running s; stop_event := stop_event s;
       scheduler_thread := scheduler_thread s;
       stats := {| commits_created := commits_created (stats s);
                   last_commit_time := last_commit_time (stats s);
                   errors := errors (stats s) + 1;
                   start_time := start_time (stats s) |};
       jobs := jobs s; queue_file := queue_file s;
       log := log s ++
         [Log ERROR "Failed to create scheduled commit: {}" []] |}.

(** What one job leaves behind: the scheduler, the world, and the calls
    made to [create_commit]. *)
Record JobResult := {
  jr_state : State;
  jr_world : World;
  jr_commit_calls : list (Changes * string)
}.

(** [_create_scheduled_commit(scheduled_time)] *)
Definition _create_scheduled_commit (cfg : Config) (now : Z)
    (sched : option Z) (w : World) (s : State) : JobResult :=
  let s := {| is_running := is_running s; stop_event := stop_event s;
              scheduler_thread := scheduler_thread s; stats := stats s;
              jobs := jobs s; queue_file := queue_file s;
              log := log s ++ [Log INFO "Creating scheduled commit..." []] |} in
  match generate_changes w with
  | (Exn e, w) =>
      {| jr_state := on_error cfg now e sched s; jr_world := w;
         jr_commit_calls := [] |}
  | (Ok [], w) =>
      {| jr_state :=
           {| is_running := is_running s; stop_event := stop_event s;
              scheduler_thread := scheduler_thread s; stats := stats s;
              jobs := jobs s; queue_file := queue_file s;
              log := log s ++
                [Log WARNING "No changes generated, skipping commit" []] |};
         jr_world := w; jr_commit_calls := [] |}
  | (Ok changes, w) =>
      match generate_commit_message w with
      | (Exn e, w) =>
          {| jr_state := on_error cfg now e sched s; jr_world := w;
             jr_commit_calls := [] |}
      | (Ok message, w) =>
          match create_commit w changes message with
          | (Exn e, w) =>
              {| jr_state := on_error cfg now e sched s; jr_world := w;
                 jr_commit_calls := [(changes, message)] |}
          | (Ok commit_hash, w) =>
              {| jr_state :=
                   {| is_running := is_running s; stop_event := stop_event s;
                      scheduler_thread := scheduler_thread s;
                      stats := {| commits_created := commits_created (stats s) + 1;
                                  last_commit_time := Some now;
                                  errors := errors (stats s);
                                  start_time := start_time (stats s) |};
                      jobs := jobs s; queue_file := queue_file s;
                      log := log s ++ [Log INFO "Created commit: {} - {}" []] |};
                 jr_world := w;
                 jr_commit_calls := [(changes, message)] |}
          end
      end
  end.

End Jobs.

(** *** The scheduler's own sweep of the retry queue *)

Definition with_retry (item : RetryItem) (count next : Z) : RetryItem :=
  {| scheduled_time := scheduled_time item; error := error item;
     retry_count := count; next_retry := next |}.

(** The body of [for item in queue] in [_process_pending_commits]:
    the new queue and the log. *)
Definition process_item (cfg : Config) (now : Z)
    (st : list RetryItem * list LogRecord) (item : RetryItem)
    : list RetryItem * list LogRecord :=
  let '(new_queue, lg) := st in
  if bool_decide (next_retry item <= now) then
    let lg := lg ++ [Log INFO "Retrying failed commit from {}" [scheduled_time item]] in
    let count := retry_count item + 1 in
    if bool_decide (count < retry_attempts cfg)
    then (new_queue ++
            [with_retry item count (now + Py.minutes (retry_delay_minutes cfg))],
          lg)
    else (new_queue,
          lg ++ [Log WARNING "Failed commit removed after {} retries"
                   [retry_attempts cfg]])
  else (new_queue ++ [item], lg).

(** [_process_pending_commits()] *)
Definition _process_pending_commits (cfg : Config) (now : Z) (s : State) : State :=
  match queue_file s with
  | None => s
  | Some queue =>
      let '(new_queue, lg) := foldl (process_item cfg now) ([], log s) queue in
      {| is_running := is_running s; stop_event := stop_event s;
         scheduler_thread := scheduler_thread s; stats := stats s;
         jobs := jobs s; queue_file := Some new_queue; log := lg |}
  end.

(** *** Starting and stopping *)

(** [_validate_configuration()], on the configured repository path and
    the two quota settings as found in the configuration. *)
Definition _validate_configuration (repo_path : option string)
    (min_commits max_commits : option Z) : bool :=
  match repo_path with
  | None => false
  | Some p =>
      if bool_decide (p = "") || bool_decide (p = "./workspace") then false
      else match min_commits, max_commits with
           | Some lo, Some hi => negb (bool_decide (hi < lo))
           | _, _ => false
           end
  end.

(** [start()], up to the creation of the thread [th]; of the job list only
    the commit jobs are kept, which [schedule.clear()] removes. *)
Definition start (repo_path : option string) (min_commits max_commits : option Z)
    (now : Z) (th : Thread) (s : State) : bool * State :=
  if is_running s then (false, s)
  else if negb (_validate_configuration repo_path min_commits max_commits)
  then (false, s)
  else (true,
        {| is_running := true; stop_event := false;
           scheduler_thread := Some th;
           stats := {| commits_created := commits_created (stats s);
                       last_commit_time := last_commit_time (stats s);
                       errors := errors (stats s);
                       start_time := Some now |};
           jobs := []; queue_file := queue_file s;
           log := log s ++ [Log INFO "Starting scheduler..." [];
                            Log INFO "Schedule configured" [];
                            Log INFO "Scheduler started successfully" []] |}).

(** [thread.join(timeout=10)]: the seconds the caller is blocked. *)
Definition join (timeout : Z) (th : Thread) : Z :=
  match exits_after th with
  | Some d => Z.min (Z.max d 0) timeout
  | None => timeout
  end.

(** [stop()]: the returned value, the new state and the seconds spent
    waiting for the thread. *)
Definition stop (s : State) : bool * State * Z :=
  if negb (is_running s) then (true, s, 0)
  else
    let waited :=
      match scheduler_thread s with
      | Some th => join 10 th
      | None => 0
      end in
    (true,
     {| is_running := false; stop_event := true;
        scheduler_thread := scheduler_thread s; stats := stats s;
        jobs := jobs s; queue_file := queue_file s;
        log := log s ++ [Log INFO "Stopping scheduler..." [];
                         Log INFO "Scheduler stopped" []] |},
     waited).

Section TestCommit.

Context {World : Type}.
Variable generate_changes : World -> Outcome Changes * World.
Variable generate_commit_message : World -> Outcome string * World.
Variable create_commit : World -> Changes -> string -> Outcome string * World.

(** [create_test_commit()]: the returned value, the log, the world and the
    calls made to [create_commit]. *)
Definition create_test_commit (w : World) (lg : list LogRecord)
    : bool * list LogRecord * World * list (Changes * string) :=
  let lg := lg ++ [Log INFO "Creating test commit..." []] in
  let failed := Log ERROR "Failed to create test commit: {}" [] in
  match generate_changes w with
  | (Exn e, w) => (false, lg ++ [failed], w, [])
  | (Ok changes, w) =>
      match generate_commit_message w with
      | (Exn e, w) => (false, lg ++ [failed], w, [])
      | (Ok message, w) =>
          match create_commit w changes message with
          | (Exn e, w) => (false, lg ++ [failed], w, [(changes, message)])
          | (Ok commit_hash, w) =>
              (true, lg ++ [Log INFO "Test commit created: {} - {}" []], w,
               [(changes, message)])
          end
      end
  end.

End TestCommit.

End Scheduler.

(** * Vocabulary of the properties *)

(** The invariant of the statistics file, read the way the code reads it. *)
Definition consistent (stats : gmap string Z) : Prop :=
  Py.get0 "total_commits" stats =
  Py.get0 "successful_commits" stats + Py.get0 "failed_commits" stats.

(** One call [_update_stats(successful=.., failed=.., count=..)]. *)
Record Completion := {
  c_now : Z;
  c_successful : bool;
  c_failed : bool;
  c_count : Z
}.

Definition record_completion (stats : gmap string Z) (c : Completion)
    : gmap string Z :=
  ErrorHandler._update_stats (c_now c) (c_successful c) (c_failed c) (c_count c) stats.

(** The call records a success or a failure, not both and not neither. *)
Definition one_outcome (c : Completion) : Prop :=
  xorb (c_successful c) (c_failed c) = true.

Definition c3_calls : list Completion :=
  [ {| c_now := 1; c_successful := true; c_failed := false; c_count := 2 |};
    {| c_now := 2; c_successful := false; c_failed := true; c_count := 5 |} ].

(** A producer that yields no changes, and collaborators that would
    succeed if they were called. *)
Definition empty_producer (w : nat) : Scheduler.Outcome Scheduler.Changes * nat :=
  (Scheduler.Ok [], S w).

Definition some_message (w : nat) : Scheduler.Outcome string * nat :=
  (Scheduler.Ok "Update"%string, w).

Definition accepting_port (w : nat) (_ : Scheduler.Changes) (_ : string)
    : Scheduler.Outcome string * nat :=
  (Scheduler.Ok "0123456789abcdef"%string, w).

(** The last [n] elements of a list. *)
Definition last_n {A : Type} (n : nat) (l : list A) : list A :=
  drop (length l - n) l.

(** One call of [handle_commit_error]'s enqueueing path. *)
Record Request := {
  r_now : Z;
  r_commit_data : ErrorHandler.CommitData;
  r_error_info : ErrorHandler.ErrorInfo
}.

(** The item [_add_to_pending_queue] creates for a request. *)
Definition new_item (cfg : Config) (r : Request) : ErrorHandler.PendingItem :=
  {| ErrorHandler.added_at := r_now r;
     ErrorHandler.commit_data := r_commit_data r;
     ErrorHandler.error_info := r_error_info r;
     ErrorHandler.retry_count := 0;
     ErrorHandler.next_retry := r_now r + Py.minutes (retry_delay_minutes cfg);
     ErrorHandler.max_retries := retry_attempts cfg |}.

Definition enqueue (cfg : Config) (s : ErrorHandler.Store) (r : Request)
    : ErrorHandler.Store :=
  (ErrorHandler._add_to_pending_queue cfg (r_now r) (r_commit_data r)
     (r_error_info r) s).1.

Definition enqueue_all (cfg : Config) (s : ErrorHandler.Store)
    (rs : list Request) : ErrorHandler.Store :=
  foldl (enqueue cfg) s rs.

(** Concrete data for the examples. *)
Definition cfg_with_queue (max_size attempts delay : Z) : Config := {|
  retry_attempts := attempts; retry_delay_minutes := delay;
  queue_failed_commits := true; max_queue_size := max_size;
  max_stored_errors := 100; min_commits_per_day := 1; max_commits_per_day := 5;
  active_hours_start := 9; active_hours_end := 21; weekend_activity := false;
  random_delays := true; vary_commit_times := true |}.

Definition an_error (t : Z) : ErrorHandler.ErrorInfo :=
  {| ErrorHandler.ei_timestamp := t;
     ErrorHandler.ei_error_type := "GitError";
     ErrorHandler.ei_error_message := "push failed";
     ErrorHandler.ei_commit_data := None |}.

Definition request (t : Z) (name : string) : Request :=
  {| r_now := t; r_commit_data := [(name, "x"%string)];
     r_error_info := an_error t |}.

Definition store_with (q : list ErrorHandler.PendingItem) : ErrorHandler.Store :=
  {| ErrorHandler.pending_file := q; ErrorHandler.errors_file := [];
     ErrorHandler.stats_file := ErrorHandler.default_stats 0;
     ErrorHandler.log := [] |}.

Definition c2_cfg : Config := cfg_with_queue 1 3 30.
Definition c2_old : ErrorHandler.PendingItem := new_item c2_cfg (request 0 "a").
Definition c2_new : Request := request 5 "b".
Definition c2_requests : list Request := [request 0 "a"; request 5 "b"].

(** The item is due at [now]: the test [datetime.now() >= next_retry]. *)
Definition due (now : Z) (item : ErrorHandler.PendingItem) : Prop :=
  ErrorHandler.next_retry item <= now.

#[global] Instance due_dec (now : Z) (item : ErrorHandler.PendingItem) :
  Decision (due now item).
Proof. unfold due. apply _. Defined.

(** The item carries the unit of work [d]. *)
Definition has_data (d : ErrorHandler.CommitData)
    (item : ErrorHandler.PendingItem) : Prop :=
  ErrorHandler.commit_data item = d.

#[global] Instance has_data_dec (d : ErrorHandler.CommitData)
    (item : ErrorHandler.PendingItem) : Decision (has_data d item).
Proof. unfold has_data. apply _. Defined.

(** How often the callback was called on [d] in one sweep. *)
Definition attempts (d : ErrorHandler.CommitData)
    (calls : list ErrorHandler.CommitData) : nat :=
  length (filter (eq d) calls).

(** The callback returns a failure for [d] whatever the world is, or raises
    for [d] whatever the world is. *)
Definition always_fails {World : Type}
    (cb : World -> ErrorHandler.CommitData -> ErrorHandler.CallbackResult * World)
    (d : ErrorHandler.CommitData) : Prop :=
  forall w, (cb w d).1 = ErrorHandler.Returned false.

Definition always_raises {World : Type}
    (cb : World -> ErrorHandler.CommitData -> ErrorHandler.CallbackResult * World)
    (d : ErrorHandler.CommitData) : Prop :=
  forall w, (cb w d).1 = ErrorHandler.Raised.

(** The sweeps at [ts] each find an item due whose retry is first due at
    [next] and which every failed sweep reschedules by the fixed delay. *)
Fixpoint due_at_each (cfg : Config) (next : Z) (ts : list Z) : Prop :=
  match ts with
  | [] => True
  | t :: rest =>
      next <= t /\ due_at_each cfg (t + Py.minutes (retry_delay_minutes cfg)) rest
  end.

(** What a failed sweep at [now] leaves of an item. *)
Definition after_failure (cfg : Config) (now : Z)
    (item : ErrorHandler.PendingItem) : list ErrorHandler.PendingItem :=
  if bool_decide (due now item) then
    if bool_decide (ErrorHandler.retry_count item + 1 < ErrorHandler.max_retries item)
    then [ErrorHandler.with_retry item (ErrorHandler.retry_count item + 1)
            (now + Py.minutes (retry_delay_minutes cfg))]
    else []
  else [item].

(** Callbacks for the examples, on a world without content. *)
Definition failing (w : unit) (_ : ErrorHandler.CommitData)
    : ErrorHandler.CallbackResult * unit := (ErrorHandler.Returned false, w).

Definition raising (w : unit) (_ : ErrorHandler.CommitData)
    : ErrorHandler.CallbackResult * unit := (ErrorHandler.Raised, w).

(** The scheduler's own test of an entry of its queue, and what its sweep
    at [now] leaves of the entry. *)
Definition sdue (now : Z) (item : Scheduler.RetryItem) : Prop :=
  Scheduler.next_retry item <= now.

#[global] Instance sdue_dec (now : Z) (item : Scheduler.RetryItem) :
  Decision (sdue now item).
Proof. unfold sdue. apply _. Defined.

Definition retried (cfg : Config) (now : Z) (item : Scheduler.RetryItem)
    : list Scheduler.RetryItem :=
  if bool_decide (sdue now item) then
    if bool_decide (Scheduler.retry_count item + 1 < retry_attempts cfg)
    then [Scheduler.with_retry item (Scheduler.retry_count item + 1)
            (now + Py.minutes (retry_delay_minutes cfg))]
    else []
  else [item].

(** A queue holding one freshly enqueued item, three retry attempts, a
    delay of 30 minutes, and sweeps every 30 minutes. *)
Definition c1_cfg : Config := cfg_with_queue 50 3 30.
Definition c1_data : ErrorHandler.CommitData := [("a"%string, "x"%string)].
Definition c1_item : ErrorHandler.PendingItem := new_item c1_cfg (request 0 "a").
Definition c1_store : ErrorHandler.Store :=
  enqueue c1_cfg (store_with []) (request 0 "a").
Definition c1_times : list Z := [Py.minutes 30; Py.minutes 60; Py.minutes 90].

(** Two items enqueued 20 minutes apart, a failed sweep after 35 minutes and
    a second sweep after 70 minutes. *)
Definition c7_store : ErrorHandler.Store :=
  enqueue c1_cfg (enqueue c1_cfg (store_with []) (request 0 "a"))
    (request (Py.minutes 20) "b").
Definition c7_first : ErrorHandler.SweepResult :=
  ErrorHandler.process_pending_commits failing c1_cfg (Py.minutes 35) tt c7_store.
Definition c7_second : ErrorHandler.SweepResult :=
  ErrorHandler.process_pending_commits failing c1_cfg (Py.minutes 70) tt
    (ErrorHandler.sr_store c7_first).

(** The instant [hour]:00 of the day of [now]. *)
Definition instant (now hour : Z) : Z :=
  Datetime.toordinal now * Datetime.us_per_day + hour * Datetime.us_per_hour.

(** [t] lies between [a] and [b], whichever is the smaller. *)
Definition between (a b t : Z) : Prop := Z.min a b <= t <= Z.max a b.

(** The point halfway from [a] to [b], as [a + (b - a) / 2] computes it. *)
Definition midpoint (a b : Z) : Z := a + Datetime.half (b - a).

(** The planning does not take the early exit for weekends. *)
Definition plans_today (cfg : Config) (now : Z) : Prop :=
  Datetime.is_weekend now && negb (weekend_activity cfg) = false.

(** Tuesday 2 January 2024, as an ordinal, and times of that day. *)
Definition tuesday : Z := 738887.
Definition tue (h m : Z) : Z := Datetime.at_time tuesday h m.

Definition cfg_with_quota (lo hi start_hour end_hour : Z) (delays vary : bool)
    : Config := {|
  retry_attempts := 3; retry_delay_minutes := 30; queue_failed_commits := true;
  max_queue_size := 50; max_stored_errors := 100;
  min_commits_per_day := lo; max_commits_per_day := hi;
  active_hours_start := start_hour; active_hours_end := end_hour;
  weekend_activity := false; random_delays := delays; vary_commit_times := vary |}.

(** The plan is generated no later than the start of the window, or later
    at a minute from which five can be added, and then starts before the
    window ends. *)
Definition start_settles (now sh eh : Z) : Prop :=
  now <= instant now sh \/
  (instant now sh < now /\ Datetime.minute now <= 54 /\
   now + Py.minutes 5 <= instant now eh).

(** The times of a generated plan and of the jobs scheduled from it. *)
Definition plan_of (r : option (list Z * Random.Rng)) : option (list Z) :=
  fst <$> r.

Definition scheduled_of (r : option (Scheduler.State * Random.Rng))
    : option (list Z) :=
  (fun x => Scheduler.job_scheduled_time <$> Scheduler.jobs x.1) <$> r.

(** Quota 2 to 2 on the hours 9 to 21, and quota 3 to 3 on the hours 9 to
    10, both with the random delays and the jitter switched on. *)
Definition c4_cfg_wide : Config := cfg_with_quota 2 2 9 21 true true.
Definition c4_cfg_narrow : Config := cfg_with_quota 3 3 9 10 true true.

(** What a sweep keeps and what it leaves behind, for the further
    properties of the error handler. *)
Definition not_due (now : Z) (item : ErrorHandler.PendingItem) : Prop :=
  ~ due now item.

#[global] Instance not_due_dec (now : Z) (item : ErrorHandler.PendingItem) :
  Decision (not_due now item).
Proof. unfold not_due. apply _. Defined.

(** The callback reports success whatever it is called on. *)
Definition always_succeeds {World : Type}
    (cb : World -> ErrorHandler.CommitData -> ErrorHandler.CallbackResult * World)
    : Prop :=
  forall w d, (cb w d).1 = ErrorHandler.Returned true.

Definition succeeding (w : unit) (_ : ErrorHandler.CommitData)
    : ErrorHandler.CallbackResult * unit := (ErrorHandler.Returned true, w).


(** [x] is what a sweep may leave of [y]: the same unit of work, with at
    most one more retry counted. *)
Definition descends_from (x y : ErrorHandler.PendingItem) : Prop :=
  ErrorHandler.commit_data x = ErrorHandler.commit_data y /\
  ErrorHandler.added_at x = ErrorHandler.added_at y /\
  ErrorHandler.error_info x = ErrorHandler.error_info y /\
  ErrorHandler.max_retries x = ErrorHandler.max_retries y /\
  ErrorHandler.retry_count y <= ErrorHandler.retry_count x
    <= ErrorHandler.retry_count y + 1.

(** One if the item is due at [now], zero otherwise. *)
Definition due_count (now : Z) (item : ErrorHandler.PendingItem) : Z :=
  if bool_decide (due now item) then 1 else 0.

(** [if count > 0: self._update_stats(..., count=count)] *)
Definition update_stats_if_any (now : Z) (successful failed : bool) (count : Z)
    (stats : gmap string Z) : gmap string Z :=
  if bool_decide (0 < count)
  then ErrorHandler._update_stats now successful failed count stats
  else stats.









(** Successive runs of the scheduler's own sweep. *)
Definition ssweeps (cfg : Config) (ts : list Z) (s : Scheduler.State)
    : Scheduler.State :=
  foldl (fun s t => Scheduler._process_pending_commits cfg t s) s ts.

(** What successive sweeps leave of a queue. *)
Definition retried_all (cfg : Config) (ts : list Z)
    (q : list Scheduler.RetryItem) : list Scheduler.RetryItem :=
  foldl (fun q t => q ≫= retried cfg t) q ts.

(** As [due_at_each], for an entry of the scheduler's queue. *)
Definition an_entry : Scheduler.RetryItem :=
  {| Scheduler.scheduled_time := tue 15 0; Scheduler.error := "push failed";
     Scheduler.retry_count := 0; Scheduler.next_retry := tue 15 30 |}.

(** A port that refuses every commit. *)
Definition refusing_port (w : nat) (_ : Scheduler.Changes) (_ : string)
    : Scheduler.Outcome string * nat :=
  (Scheduler.Exn "push failed"%string, w).

Definition full_producer (w : nat) : Scheduler.Outcome Scheduler.Changes * nat :=
  (Scheduler.Ok [("notes.md"%string, "text"%string)], S w).

(** ** [ConfigManager]: the configuration behind [config.get] *)

Module ConfigManager.

(** A value of the loaded YAML document; a dictionary keeps its entries in
    insertion order.  Floats and lists, which the settings read here do not
    use, are left out. *)
#[warnings="-register-all"] Inductive Value :=
| VNone
| VBool (b : bool)
| VInt (z : Z)
| VStr (s : string)
| VDict (entries : list (string * Value)).

(** [k in d] and [d[k]] *)
Fixpoint lookup (k : string) (d : list (string * Value)) : option Value :=
  match d with
  | [] => None
  | (k', v) :: rest => if bool_decide (k' = k) then Some v else lookup k rest
  end.

(** [d[k] = v]: the entry is replaced where it stands, or added at the end. *)
Fixpoint assign (k : string) (v : Value) (d : list (string * Value))
    : list (string * Value) :=
  match d with
  | [] => [(k, v)]
  | (k', v') :: rest =>
      if bool_decide (k' = k) then (k, v) :: rest else (k', v') :: assign k v rest
  end.

(** [key.split('.')] *)
Fixpoint split_dots (key : string) : list string :=
  match key with
  | EmptyString => [EmptyString]
  | String c rest =>
      if bool_decide (c = "."%char) then EmptyString :: split_dots rest
      else match split_dots rest with
           | [] => [String c EmptyString]
           | first :: others => String c first :: others
           end
  end.

(** The loop of [get]: [None] is the early [return default]. *)
Fixpoint walk (keys : list string) (value : Value) : option Value :=
  match keys with
  | [] => Some value
  | k :: rest =>
      match value with
      | VDict d =>
          match lookup k d with
          | Some v => walk rest v
          | None => None
          end
      | _ => None
      end
  end.

(** [get(key, default)] *)
Definition get (key : string) (default : Value) (config : Value) : Value :=
  match walk (split_dots key) config with
  | Some v => v
  | None => default
  end.

(** The body of [set] on the split key; [None] is the [TypeError] raised
    when the path runs into a value that is not a dictionary. *)
Fixpoint put (keys : list string) (value : Value) (config : Value)
    : option Value :=
  match config with
  | VDict d =>
      match keys with
      | [] => None
      | [k] => Some (VDict (assign k value d))
      | k :: rest =>
          match put rest value (default (VDict []) (lookup k d)) with
          | Some sub => Some (VDict (assign k sub d))
          | None => None
          end
      end
  | _ => None
  end.

(** [set(key, value)] *)
Definition set (key : string) (value : Value) (config : Value) : option Value :=
  put (split_dots key) value config.

(** What the loop of [_merge_configs] stores under [key]: the merge of the
    two dictionaries when the result has a dictionary there and the user's
    value is one, and the user's value otherwise. *)
Definition merged_entry (merge : Value -> Value -> Value)
    (current : option Value) (value : Value) : Value :=
  match current, value with
  | Some (VDict rd), VDict _ => merge (VDict rd) value
  | _, _ => value
  end.

(** [_merge_configs(default, user)], which the code calls on two
    dictionaries only; on any other pair, where the code would raise, the
    model returns the user's value. *)
Fixpoint _merge_configs (default user : Value) {struct user} : Value :=
  match default, user with
  | VDict d, VDict u =>
      VDict
        (foldl (fun result entry =>
                  assign entry.1
                    (match lookup entry.1 result, entry.2 with
                     | Some (VDict rd), VDict _ =>
                         _merge_configs (VDict rd) entry.2
                     | _, _ => entry.2
                     end) result)
           d u)
  | _, _ => user
  end.

(** [v is None] *)
Definition is_none (v : Value) : bool :=
  match v with VNone => true | _ => false end.

(** The number a value is in an ordering comparison with an integer:
    integers and booleans compare, every other value of the document raises
    [TypeError] ([None]). *)
Definition as_int (v : Value) : option Z :=
  match v with
  | VInt z => Some z
  | VBool b => Some (if b then 1 else 0)
  | _ => None
  end.

Definition required_fields : list string :=
  ["repository.local_path"; "commit_settings.min_commits_per_day";
   "commit_settings.max_commits_per_day"]%string.

(** [_validate_config()]: the list [errors] it collects, [ConfigError] being
    raised when the list is not empty; [None] is a [TypeError] raised by a
    comparison. *)
Definition _validate_config (config : Value) : option (list string) :=
  let missing :=
    required_fields ≫= (fun field =>
      if is_none (get field VNone config)
      then ["Missing required field: " +:+ field]
      else []) in
  let min_commits := get "commit_settings.min_commits_per_day" VNone config in
  let max_commits := get "commit_settings.max_commits_per_day" VNone config in
  quota ←
    (if is_none min_commits || is_none max_commits then Some []
     else
       lo ← as_int min_commits;
       hi ← as_int max_commits;
       Some
         ((if bool_decide (hi < lo)
           then ["min_commits_per_day cannot be greater than max_commits_per_day"]
           else []) ++
          (if bool_decide (lo < 0)
           then ["min_commits_per_day cannot be negative"] else []) ++
          (if bool_decide (100 < hi)
           then ["max_commits_per_day is too high (max 100)"] else [])));
  let start_hour := get "commit_settings.active_hours.start" VNone config in
  let end_hour := get "commit_settings.active_hours.end" VNone config in
  hours ←
    (if is_none start_hour || is_none end_hour then Some []
     else
       st ← as_int start_hour;
       en ← as_int end_hour;
       Some
         ((if bool_decide (0 <= st <= 23) then []
           else ["active_hours.start must be between 0 and 23"]) ++
          (if bool_decide (0 <= en <= 23) then []
           else ["active_hours.end must be between 0 and 23"]) ++
          (if bool_decide (en <= st)
           then ["active_hours.start must be less than active_hours.end"]
           else [])));
  Some (missing ++ quota ++ hours).

End ConfigManager.

Definition is_dict (v : ConfigManager.Value) : Prop :=
  exists d, v = ConfigManager.VDict d.

(** The two paths part at some component. *)
Definition diverge (keys keys' : list string) : Prop :=
  exists p k k' r r',
    keys = p ++ k :: r /\ keys' = p ++ k' :: r' /\ k <> k'.

(** A small configuration document. *)
Definition a_config : ConfigManager.Value :=
  ConfigManager.VDict
    [("repository"%string,
      ConfigManager.VDict [("local_path"%string, ConfigManager.VStr "./workspace")]);
     ("commit_settings"%string,
      ConfigManager.VDict
        [("min_commits_per_day"%string, ConfigManager.VInt 1);
         ("max_commits_per_day"%string, ConfigManager.VInt 5)])].

(** The quota and the hours as the validation sees them. *)
Definition quota_ok (config : ConfigManager.Value) : Prop :=
  exists lo hi,
    ConfigManager.as_int
      (ConfigManager.get "commit_settings.min_commits_per_day"
         ConfigManager.VNone config) = Some lo /\
    ConfigManager.as_int
      (ConfigManager.get "commit_settings.max_commits_per_day"
         ConfigManager.VNone config) = Some hi /\
    0 <= lo <= hi /\ hi <= 100.

Definition hours_ok (config : ConfigManager.Value) : Prop :=
  let start_hour := ConfigManager.get "commit_settings.active_hours.start"
                      ConfigManager.VNone config in
  let end_hour := ConfigManager.get "commit_settings.active_hours.end"
                    ConfigManager.VNone config in
  start_hour = ConfigManager.VNone \/ end_hour = ConfigManager.VNone \/
  exists st en,
    ConfigManager.as_int start_hour = Some st /\
    ConfigManager.as_int end_hour = Some en /\
    0 <= st < en /\ en <= 23.

(** A user file that overrides one quota bound and adds the active hours. *)
Definition a_user_config : ConfigManager.Value :=
  ConfigManager.VDict
    [("commit_settings"%string,
      ConfigManager.VDict
        [("max_commits_per_day"%string, ConfigManager.VInt 3);
         ("active_hours"%string,
          ConfigManager.VDict [("start"%string, ConfigManager.VInt 8);
                               ("end"%string, ConfigManager.VInt 20)])])].

(** * Properties *)

(** ** Statistics *)

Lemma get0_insert_eq (k : string) (v : Z) (m : gmap string Z) :
  Py.get0 k (<[k := v]> m) = v.
Proof. unfold Py.get0. by rewrite lookup_insert_eq. Qed.

Lemma get0_insert_ne (k k' : string) (v : Z) (m : gmap string Z) :
  k ≠ k' -> Py.get0 k' (<[k := v]> m) = Py.get0 k' m.
Proof. intros Hne. unfold Py.get0. by rewrite lookup_insert_ne. Qed.

Ltac get0_simpl :=
  repeat first
    [ rewrite get0_insert_eq
    | rewrite get0_insert_ne by (intros [=]) ].

Lemma default_stats_consistent (now : Z) :
  consistent (ErrorHandler.default_stats now).
Proof. unfold consistent, ErrorHandler.default_stats. by get0_simpl. Qed.

Lemma update_stats_consistent (now : Z) (successful failed : bool) (count : Z)
    (stats : gmap string Z) :
  xorb successful failed = true ->
  consistent stats ->
  consistent (ErrorHandler._update_stats now successful failed count stats).
Proof.
  unfold consistent, ErrorHandler._update_stats.
  intros Hx Hc.
  destruct successful, failed; simpl in Hx; try discriminate; get0_simpl; lia.
Qed.


Lemma record_completions_consistent (calls : list Completion)
    (stats : gmap string Z) :
  Forall one_outcome calls ->
  consistent stats ->
  consistent (foldl record_completion stats calls).
Proof.
  revert stats.
  induction calls as [|c calls IH]; intros stats Hall Hc; simpl; [done|].
  inversion Hall as [|? ? Hone Hrest]; subst.
  apply IH; [done|].
  by apply update_stats_consistent.
Qed.



(** C3: starting from the statistics of a fresh installation, after any
    sequence of [_update_stats] calls that each record either a success or a
    failure (with any count), [total_commits] equals
    [successful_commits + failed_commits]. *)
Theorem C3_total_is_successful_plus_failed (now0 : Z) (calls : list Completion) :
  Forall one_outcome calls ->
  consistent (foldl record_completion (ErrorHandler.default_stats now0) calls).
Proof.
  intros Hall. apply record_completions_consistent; [done|].
  apply default_stats_consistent.
Qed.

Lemma C3_witness :
  Forall one_outcome c3_calls /\
  consistent (foldl record_completion (ErrorHandler.default_stats 0) c3_calls).
Proof.
  assert (Forall one_outcome c3_calls) as H by (repeat constructor).
  split; [exact H|].
  apply (C3_total_is_successful_plus_failed 0 c3_calls H).
Defined.

(** ** A job whose producer yields nothing *)

(** C8: when [generate_changes] returns an empty dictionary, the job makes no
    call to [create_commit], leaves the retry queue, the scheduler's
    statistics, its jobs and its running flags as they were, and the world is
    the one the producer left. *)
Theorem C8_empty_payload_is_skipped {World : Type}
    (generate_changes : World -> Scheduler.Outcome Scheduler.Changes * World)
    (generate_commit_message : World -> Scheduler.Outcome string * World)
    (create_commit :
       World -> Scheduler.Changes -> string -> Scheduler.Outcome string * World)
    (cfg : Config) (now : Z) (sched : option Z) (w w' : World)
    (s : Scheduler.State) :
  generate_changes w = (Scheduler.Ok [], w') ->
  let r := Scheduler._create_scheduled_commit
             generate_changes generate_commit_message create_commit
             cfg now sched w s in
  Scheduler.jr_commit_calls r = [] /\
  Scheduler.jr_world r = w' /\
  Scheduler.queue_file (Scheduler.jr_state r) = Scheduler.queue_file s /\
  Scheduler.stats (Scheduler.jr_state r) = Scheduler.stats s /\
  Scheduler.jobs (Scheduler.jr_state r) = Scheduler.jobs s /\
  Scheduler.is_running (Scheduler.jr_state r) = Scheduler.is_running s /\
  Scheduler.log (Scheduler.jr_state r) =
    Scheduler.log s ++
      [Log INFO "Creating scheduled commit..." [];
       Log WARNING "No changes generated, skipping commit" []].
Proof.
  intros Hgen. unfold Scheduler._create_scheduled_commit.
  rewrite Hgen. simpl. rewrite <- app_assoc. done.
Qed.

Lemma C8_witness :
  empty_producer 0%nat = (Scheduler.Ok [], 1%nat) /\
  Scheduler.jr_commit_calls
    (Scheduler._create_scheduled_commit empty_producer some_message
       accepting_port default_config 0 (Some 0) 0%nat Scheduler.init) = [].
Proof.
  split; [reflexivity|].
  apply (C8_empty_payload_is_skipped empty_producer some_message accepting_port
           default_config 0 (Some 0) 0%nat 1%nat Scheduler.init).
  reflexivity.
Defined.

(** ** Stopping *)

Lemma join_bounded (timeout : Z) (th : Scheduler.Thread) :
  0 <= timeout -> 0 <= Scheduler.join timeout th <= timeout.
Proof.
  intros Ht. unfold Scheduler.join. destruct (Scheduler.exits_after th); lia.
Qed.

(** C9: [stop()] on a scheduler that is not running returns [True], changes
    nothing and does not wait; from any state [stop()] returns [True], leaves
    [is_running] false, waits at most the 10 seconds of the join (also for a
    thread that never exits), and a second [stop()] is a no-op. *)
Theorem C9_stop_idempotent_and_bounded (s : Scheduler.State) :
  (Scheduler.is_running s = false -> Scheduler.stop s = (true, s, 0)) /\
  (Scheduler.stop s).1.1 = true /\
  Scheduler.is_running (Scheduler.stop s).1.2 = false /\
  0 <= (Scheduler.stop s).2 <= 10 /\
  Scheduler.stop (Scheduler.stop s).1.2 = (true, (Scheduler.stop s).1.2, 0).
Proof.
  unfold Scheduler.stop.
  destruct (Scheduler.is_running s) eqn:Hrun; simpl.
  - split; [discriminate|]. repeat split; try done.
    + destruct (Scheduler.scheduler_thread s) as [th|]; [|lia].
      pose proof (join_bounded 10 th); lia.
    + destruct (Scheduler.scheduler_thread s) as [th|]; [|lia].
      pose proof (join_bounded 10 th); lia.
  - rewrite Hrun. simpl. repeat split; done.
Qed.

Example stop_after_start :
  let running :=
    (Scheduler.start (Some "/home/student/repo"%string) (Some 1) (Some 5) 0
       {| Scheduler.exits_after := None |} Scheduler.init).2 in
  Scheduler.is_running running = true /\
  Scheduler.is_running (Scheduler.stop running).1.2 = false /\
  (Scheduler.stop running).2 = 10.
Proof. repeat split; reflexivity. Qed.

Lemma C9_witness :
  Scheduler.is_running Scheduler.init = false /\
  Scheduler.stop Scheduler.init = (true, Scheduler.init, 0).
Proof.
  split; [reflexivity|].
  exact (proj1 (C9_stop_idempotent_and_bounded Scheduler.init) eq_refl).
Defined.

(** ** The bounded queue *)

Lemma keep_last_spec {A : Type} (m : Z) (l : list A) :
  1 <= m ->
  (if bool_decide (m < Py.len l) then Py.slice_from (- m) l else l) =
  last_n (Z.to_nat m) l.
Proof.
  intros Hm. unfold last_n, Py.slice_from, Py.len.
  case_bool_decide as Hlt.
  - rewrite bool_decide_eq_true_2 by lia. f_equal. lia.
  - replace (length l - Z.to_nat m)%nat with 0%nat by lia. done.
Qed.

Lemma last_n_length {A : Type} (n : nat) (l : list A) :
  length (last_n n l) = Nat.min n (length l).
Proof. unfold last_n. rewrite length_drop. lia. Qed.

Lemma last_n_app {A : Type} (n : nat) (a b : list A) :
  last_n n (last_n n a ++ b) = last_n n (a ++ b).
Proof.
  unfold last_n. rewrite !length_app, length_drop.
  destruct (decide (length a <= n)%nat) as [Hle|Hgt].
  - replace (length a - n)%nat with 0%nat by lia. simpl.
    f_equal. lia.
  - replace (length a - (length a - n) + length b - n)%nat
      with (length b) by lia.
    replace (length a + length b - n)%nat
      with ((length a - n) + length b)%nat by lia.
    rewrite <- drop_drop. f_equal.
    rewrite drop_app_le by lia. done.
Qed.

Lemma add_to_pending_queue_file (cfg : Config) (s : ErrorHandler.Store)
    (r : Request) :
  1 <= max_queue_size cfg ->
  ErrorHandler.pending_file (enqueue cfg s r) =
  last_n (Z.to_nat (max_queue_size cfg))
    (ErrorHandler.pending_file s ++ [new_item cfg r]).
Proof.
  intros Hm. unfold enqueue, ErrorHandler._add_to_pending_queue. simpl.
  by rewrite keep_last_spec.
Qed.

Lemma enqueue_all_file (cfg : Config) (rs : list Request) (r : Request)
    (s : ErrorHandler.Store) :
  1 <= max_queue_size cfg ->
  ErrorHandler.pending_file (enqueue_all cfg s (r :: rs)) =
  last_n (Z.to_nat (max_queue_size cfg))
    (ErrorHandler.pending_file s ++ (new_item cfg <$> r :: rs)).
Proof.
  intros Hm. revert s r.
  induction rs as [|r' rs IH]; intros s r.
  - simpl. by apply add_to_pending_queue_file.
  - change (enqueue_all cfg s (r :: r' :: rs))
      with (enqueue_all cfg (enqueue cfg s r) (r' :: rs)).
    rewrite IH. rewrite add_to_pending_queue_file by done.
    rewrite last_n_app. rewrite <- app_assoc. done.
Qed.

Lemma add_to_pending_queue_bounded (cfg : Config) (s : ErrorHandler.Store)
    (r : Request) :
  1 <= max_queue_size cfg ->
  Py.len (ErrorHandler.pending_file (enqueue cfg s r)) <= max_queue_size cfg.
Proof.
  intros Hm. rewrite add_to_pending_queue_file by done.
  unfold Py.len. rewrite last_n_length. lia.
Qed.

Lemma add_to_retry_queue_bounded (cfg : Config) (now sched : Z) (msg : string)
    (s : Scheduler.State) :
  1 <= max_queue_size cfg ->
  exists queue,
    Scheduler.queue_file (Scheduler._add_to_retry_queue cfg now sched msg s)
      = Some queue /\
    Py.len queue <= max_queue_size cfg.
Proof.
  intros Hm. unfold Scheduler._add_to_retry_queue. simpl.
  eexists; split; [done|].
  rewrite keep_last_spec by done.
  unfold Py.len. rewrite last_n_length. lia.
Qed.

(** C2 (as the code has it): with a capacity of at least one, enqueueing
    [max_queue_size + 1] items onto any queue leaves exactly the last
    [max_queue_size] of them, in order, so everything older is gone and, the
    items being distinct, so is the first of them; after every single enqueue, in the error handler and in
    the scheduler, the queue holds at most [max_queue_size] items.  The
    enqueue logs one record, the "Added to pending queue" line with the new
    length, and returns that length: nothing records that an item was
    dropped. *)
Theorem C2_queue_keeps_newest (cfg : Config) (s : ErrorHandler.Store)
    (rs : list Request) :
  1 <= max_queue_size cfg ->
  Py.len rs = max_queue_size cfg + 1 ->
  ErrorHandler.pending_file (enqueue_all cfg s rs) = (new_item cfg <$> drop 1 rs) /\
  Py.len (ErrorHandler.pending_file (enqueue_all cfg s rs)) = max_queue_size cfg /\
  (forall r0,
     head rs = Some r0 -> NoDup (new_item cfg <$> rs) ->
     new_item cfg r0 ∉ ErrorHandler.pending_file (enqueue_all cfg s rs)) /\
  (forall s' r,
     Py.len (ErrorHandler.pending_file (enqueue cfg s' r)) <= max_queue_size cfg) /\
  (forall now sched msg st,
     exists queue,
       Scheduler.queue_file (Scheduler._add_to_retry_queue cfg now sched msg st)
         = Some queue /\
       Py.len queue <= max_queue_size cfg) /\
  (forall s' r,
     ErrorHandler.log (enqueue cfg s' r) =
     ErrorHandler.log s' ++
       [Log INFO "Added to pending queue. Total pending: {}"
          [Py.len (ErrorHandler.pending_file (enqueue cfg s' r))]]).
Proof.
  intros Hm Hlen.
  assert (ErrorHandler.pending_file (enqueue_all cfg s rs)
          = (new_item cfg <$> drop 1 rs)) as Hfile.
  { destruct rs as [|r rs]; [unfold Py.len in Hlen; simpl in Hlen; lia|].
    rewrite enqueue_all_file by done.
    unfold Py.len in Hlen. simpl in Hlen.
    unfold last_n. rewrite length_app, length_fmap. simpl.
    replace (length (ErrorHandler.pending_file s) + S (length rs)
             - Z.to_nat (max_queue_size cfg))%nat
      with (length (ErrorHandler.pending_file s) + 1)%nat by lia.
    rewrite <- drop_drop. rewrite drop_app_length. simpl. by rewrite drop_0. }
  split; [done|]. split.
  { rewrite Hfile. unfold Py.len in *. rewrite length_fmap, length_drop. lia. }
  split.
  { intros r0 Hhd Hnd. rewrite Hfile.
    destruct rs as [|r rs]; [done|]. simpl in Hhd. injection Hhd as ->.
    simpl in *. rewrite drop_0. by apply NoDup_cons in Hnd as [Hnotin _]. }
  split; [intros; by apply add_to_pending_queue_bounded|].
  split; [intros; by apply add_to_retry_queue_bounded|].
  done.
Qed.

Lemma C2_witness :
  1 <= max_queue_size c2_cfg /\
  Py.len c2_requests = max_queue_size c2_cfg + 1 /\
  ErrorHandler.pending_file (enqueue_all c2_cfg (store_with [c2_old]) c2_requests)
    = [new_item c2_cfg (request 5 "b")].
Proof.
  assert (1 <= max_queue_size c2_cfg) as H1 by (simpl; lia).
  assert (Py.len c2_requests = max_queue_size c2_cfg + 1) as H2 by reflexivity.
  split; [exact H1|]. split; [exact H2|].
  exact (proj1 (C2_queue_keeps_newest c2_cfg (store_with [c2_old]) c2_requests H1 H2)).
Defined.

(** C2 fails as stated: with capacity 1, enqueueing onto a queue that holds
    one item drops that item, and everything the call produces -- the files,
    the log and the returned value -- is identical to what the same enqueue
    produces on an empty queue, where nothing is dropped.  No eviction is
    recorded. *)
Lemma C2_counterexample :
  ErrorHandler.pending_file (enqueue c2_cfg (store_with [c2_old]) c2_new)
    = [new_item c2_cfg c2_new] /\
  (c2_old ∉ ErrorHandler.pending_file (enqueue c2_cfg (store_with [c2_old]) c2_new)) /\
  ErrorHandler._add_to_pending_queue c2_cfg (r_now c2_new) (r_commit_data c2_new)
    (r_error_info c2_new) (store_with [c2_old]) =
  ErrorHandler._add_to_pending_queue c2_cfg (r_now c2_new) (r_commit_data c2_new)
    (r_error_info c2_new) (store_with []).
Proof.
  split; [reflexivity|]. split; [|reflexivity].
  intros Hin. apply list_elem_of_singleton in Hin. discriminate Hin.
Qed.

(** ** One sweep of the retry queue *)

Section SweepFacts.

Context {World : Type}.
Variable cb : World -> ErrorHandler.CommitData -> ErrorHandler.CallbackResult * World.
Variable cfg : Config.
Variable now : Z.

Abbreviation step := (ErrorHandler.process_item cb cfg now).
Abbreviation loop := (ErrorHandler.sweep_loop cb cfg now).

Ltac step_cases item st :=
  unfold ErrorHandler.process_item, due in *;
  repeat case_bool_decide; try lia;
  try (destruct (cb (ErrorHandler.ls_world st) (ErrorHandler.commit_data item))
         as [[[]|] ?] eqn:?);
  repeat case_bool_decide; simpl in *; try lia.

Lemma process_item_calls st item :
  ErrorHandler.ls_calls (step st item) =
  ErrorHandler.ls_calls st ++
    (if bool_decide (due now item) then [ErrorHandler.commit_data item] else []).
Proof. step_cases item st; by rewrite ?app_nil_r. Qed.

Lemma process_item_mono st item x :
  x ∈ ErrorHandler.ls_new_pending st ->
  x ∈ ErrorHandler.ls_new_pending (step st item).
Proof. intros Hx. step_cases item st; set_solver. Qed.

Lemma process_item_not_due st item :
  ~ due now item -> item ∈ ErrorHandler.ls_new_pending (step st item).
Proof. intros Hnd. step_cases item st; set_solver. Qed.

Lemma process_item_raised st item :
  (cb (ErrorHandler.ls_world st) (ErrorHandler.commit_data item)).1
    = ErrorHandler.Raised ->
  item ∈ ErrorHandler.ls_new_pending (step st item).
Proof.
  intros Hr. step_cases item st; simpl in Hr; try discriminate; set_solver.
Qed.

Lemma sweep_loop_calls l st :
  ErrorHandler.ls_calls (loop st l) =
  ErrorHandler.ls_calls st ++ (ErrorHandler.commit_data <$> filter (due now) l).
Proof.
  revert st. induction l as [|item l IH]; intros st.
  - simpl. by rewrite app_nil_r.
  - unfold ErrorHandler.sweep_loop in *. simpl. rewrite IH.
    rewrite process_item_calls, filter_cons.
    case_bool_decide; case_decide; try done.
    + by rewrite <- app_assoc.
    + by rewrite app_nil_r.
Qed.

Lemma sweep_loop_mono l st x :
  x ∈ ErrorHandler.ls_new_pending st ->
  x ∈ ErrorHandler.ls_new_pending (loop st l).
Proof.
  revert st. induction l as [|item l IH]; intros st Hx; [done|].
  unfold ErrorHandler.sweep_loop in *. simpl.
  apply IH. by apply process_item_mono.
Qed.

Lemma sweep_loop_not_due l st item :
  item ∈ l -> ~ due now item ->
  item ∈ ErrorHandler.ls_new_pending (loop st l).
Proof.
  revert st. induction l as [|x l IH]; intros st Hin Hnd.
  - by apply not_elem_of_nil in Hin.
  - unfold ErrorHandler.sweep_loop in *. simpl.
    apply elem_of_cons in Hin as [->|Hin].
    + apply sweep_loop_mono. by apply process_item_not_due.
    + by apply IH.
Qed.

Lemma sweep_loop_raised l st item :
  always_raises cb (ErrorHandler.commit_data item) ->
  item ∈ l ->
  item ∈ ErrorHandler.ls_new_pending (loop st l).
Proof.
  intros Hr. revert st. induction l as [|x l IH]; intros st Hin.
  - by apply not_elem_of_nil in Hin.
  - unfold ErrorHandler.sweep_loop in *. simpl.
    apply elem_of_cons in Hin as [<-|Hin].
    + apply sweep_loop_mono.
      destruct (decide (due now item)) as [Hd|Hnd].
      * apply process_item_raised. apply Hr.
      * by apply process_item_not_due.
    + by apply IH.
Qed.

Lemma process_pending_commits_file w s :
  ErrorHandler.pending_file
    (ErrorHandler.sr_store (ErrorHandler.process_pending_commits cb cfg now w s)) =
  ErrorHandler.ls_new_pending
    (loop (ErrorHandler.loop_init w (ErrorHandler.log s)) (ErrorHandler.pending_file s)).
Proof.
  unfold ErrorHandler.process_pending_commits.
  destruct (ErrorHandler.pending_file s) as [|item rest] eqn:Hp; [|done].
  simpl. by rewrite Hp.
Qed.

Lemma process_pending_commits_calls w s :
  ErrorHandler.sr_calls (ErrorHandler.process_pending_commits cb cfg now w s) =
  ErrorHandler.ls_calls
    (loop (ErrorHandler.loop_init w (ErrorHandler.log s)) (ErrorHandler.pending_file s)).
Proof.
  unfold ErrorHandler.process_pending_commits.
  by destruct (ErrorHandler.pending_file s) as [|item rest] eqn:Hp.
Qed.

End SweepFacts.

Section SweepCounting.

Context {World : Type}.
Variable cb : World -> ErrorHandler.CommitData -> ErrorHandler.CallbackResult * World.
Variable cfg : Config.
Variable d : ErrorHandler.CommitData.

Lemma process_item_filter now st item :
  always_fails cb d ->
  filter (has_data d) (ErrorHandler.ls_new_pending
                         (ErrorHandler.process_item cb cfg now st item)) =
  filter (has_data d) (ErrorHandler.ls_new_pending st) ++
    (if decide (has_data d item) then after_failure cfg now item else []).
Proof.
  intros Hfail.
  pose proof (Hfail (ErrorHandler.ls_world st)) as Hres.
  unfold ErrorHandler.process_item, after_failure, due, has_data in *.
  case_decide as Hd.
  - rewrite Hd.
    destruct (cb (ErrorHandler.ls_world st) d) as [res w']. simpl in Hres.
    subst res.
    repeat case_bool_decide; simpl; try lia;
      rewrite ?filter_app, ?filter_cons, ?filter_nil, ?app_nil_r;
      try done; case_decide; simpl in *; rewrite ?app_nil_r;
      first [done | congruence].
  - destruct (cb (ErrorHandler.ls_world st) (ErrorHandler.commit_data item))
      as [[[]|] w'];
    repeat case_bool_decide; simpl;
      rewrite ?filter_app, ?filter_cons, ?filter_nil, ?app_nil_r;
      try done; case_decide; simpl in *; rewrite ?app_nil_r;
      first [done | congruence].
Qed.

Lemma sweep_loop_filter now l st :
  always_fails cb d ->
  filter (has_data d) (ErrorHandler.ls_new_pending
                         (ErrorHandler.sweep_loop cb cfg now st l)) =
  filter (has_data d) (ErrorHandler.ls_new_pending st) ++
    (filter (has_data d) l ≫= after_failure cfg now).
Proof.
  intros Hfail. revert st. induction l as [|item l IH]; intros st.
  - simpl. by rewrite app_nil_r.
  - unfold ErrorHandler.sweep_loop in *. simpl. rewrite IH.
    rewrite process_item_filter by done. rewrite filter_cons.
    case_decide; simpl.
    + by rewrite <- app_assoc.
    + by rewrite app_nil_r.
Qed.

Lemma attempts_of_due now (l : list ErrorHandler.PendingItem) :
  attempts d (ErrorHandler.commit_data <$> filter (due now) l) =
  length (filter (due now) (filter (has_data d) l)).
Proof.
  unfold attempts. induction l as [|item l IH]; [done|].
  rewrite (filter_cons (due now)), (filter_cons (has_data d)).
  destruct (decide (due now item)) as [Hd|Hnd];
    destruct (decide (has_data d item)) as [Hh|Hh]; unfold has_data in Hh;
    rewrite ?fmap_cons, ?filter_cons; repeat case_decide;
    simpl; first [done | congruence | lia].
Qed.

Lemma sweep_loop_attempts now l st :
  attempts d (ErrorHandler.ls_calls (ErrorHandler.sweep_loop cb cfg now st l)) =
  (attempts d (ErrorHandler.ls_calls st)
   + length (filter (due now) (filter (has_data d) l)))%nat.
Proof.
  rewrite sweep_loop_calls, <- attempts_of_due. unfold attempts.
  by rewrite filter_app, length_app.
Qed.

Lemma process_pending_commits_filter now w s :
  always_fails cb d ->
  filter (has_data d)
    (ErrorHandler.pending_file
       (ErrorHandler.sr_store (ErrorHandler.process_pending_commits cb cfg now w s))) =
  filter (has_data d) (ErrorHandler.pending_file s) ≫= after_failure cfg now.
Proof.
  intros Hfail. rewrite process_pending_commits_file.
  by rewrite sweep_loop_filter.
Qed.

Lemma process_pending_commits_attempts now w s :
  attempts d
    (ErrorHandler.sr_calls (ErrorHandler.process_pending_commits cb cfg now w s)) =
  length (filter (due now) (filter (has_data d) (ErrorHandler.pending_file s))).
Proof.
  rewrite process_pending_commits_calls. by rewrite sweep_loop_attempts.
Qed.

End SweepCounting.

(** ** Successive sweeps *)

Section Sweeps.

Context {World : Type}.
Variable cb : World -> ErrorHandler.CommitData -> ErrorHandler.CallbackResult * World.
Variable cfg : Config.

Lemma sweeps_cons t ts w s :
  ErrorHandler.sweeps cb cfg (t :: ts) w s =
  let r := ErrorHandler.process_pending_commits cb cfg t w s in
  let rest := ErrorHandler.sweeps cb cfg ts (ErrorHandler.sr_world r)
                (ErrorHandler.sr_store r) in
  (rest.1.1, rest.1.2, ErrorHandler.sr_calls r :: rest.2).
Proof.
  simpl.
  by destruct (ErrorHandler.sweeps cb cfg ts _ _) as [[s' w'] calls].
Qed.

Lemma sweeps_absent d ts w s :
  always_fails cb d ->
  filter (has_data d) (ErrorHandler.pending_file s) = [] ->
  filter (has_data d)
    (ErrorHandler.pending_file (ErrorHandler.sweeps cb cfg ts w s).1.1) = [] /\
  Forall (fun cs => attempts d cs = 0%nat) (ErrorHandler.sweeps cb cfg ts w s).2 /\
  length (ErrorHandler.sweeps cb cfg ts w s).2 = length ts.
Proof.
  intros Hfail. revert w s.
  induction ts as [|t ts IH]; intros w s Hnone; [done|].
  rewrite sweeps_cons. simpl.
  set (r := ErrorHandler.process_pending_commits cb cfg t w s).
  assert (filter (has_data d) (ErrorHandler.pending_file (ErrorHandler.sr_store r))
          = []) as Hnone'.
  { subst r. rewrite process_pending_commits_filter by done. by rewrite Hnone. }
  assert (attempts d (ErrorHandler.sr_calls r) = 0%nat) as Hcalls.
  { subst r. rewrite process_pending_commits_attempts. by rewrite Hnone. }
  destruct (IH (ErrorHandler.sr_world r) (ErrorHandler.sr_store r) Hnone')
    as (Hq & Hc & Hl).
  split; [done|]. split; [by constructor|]. by rewrite Hl.
Qed.

Lemma sweeps_exhaust d ts item w s :
  always_fails cb d ->
  filter (has_data d) (ErrorHandler.pending_file s) = [item] ->
  ErrorHandler.retry_count item < ErrorHandler.max_retries item ->
  Z.of_nat (length ts) =
    ErrorHandler.max_retries item - ErrorHandler.retry_count item ->
  due_at_each cfg (ErrorHandler.next_retry item) ts ->
  filter (has_data d)
    (ErrorHandler.pending_file (ErrorHandler.sweeps cb cfg ts w s).1.1) = [] /\
  Forall (fun cs => attempts d cs = 1%nat) (ErrorHandler.sweeps cb cfg ts w s).2 /\
  length (ErrorHandler.sweeps cb cfg ts w s).2 = length ts.
Proof.
  intros Hfail. revert item w s.
  induction ts as [|t ts IH]; intros item w s Hone Hlt Hlen Hdue.
  { simpl in Hlen. lia. }
  rewrite sweeps_cons. simpl. destruct Hdue as [Hnow Hdue].
  set (r := ErrorHandler.process_pending_commits cb cfg t w s).
  assert (attempts d (ErrorHandler.sr_calls r) = 1%nat) as Hcalls.
  { subst r. rewrite process_pending_commits_attempts, Hone.
    by rewrite filter_cons_True. }
  assert (filter (has_data d) (ErrorHandler.pending_file (ErrorHandler.sr_store r))
          = after_failure cfg t item) as Hleft.
  { subst r. rewrite process_pending_commits_filter by done.
    rewrite Hone. simpl. by rewrite app_nil_r. }
  unfold after_failure in Hleft.
  rewrite bool_decide_eq_true_2 in Hleft by done.
  case_bool_decide as Hmore.
  - destruct (IH _ (ErrorHandler.sr_world r) (ErrorHandler.sr_store r) Hleft)
      as (Hq & Hc & Hl); simpl in *; try done; try lia.
    split; [done|]. split; [by constructor|]. by rewrite Hl.
  - destruct ts as [|t' ts]; [|simpl in Hlen; lia].
    simpl. split; [done|]. split; [|done]. by repeat constructor.
Qed.

Lemma sweeps_raised item ts w s :
  always_raises cb (ErrorHandler.commit_data item) ->
  item ∈ ErrorHandler.pending_file s ->
  Forall (fun t => due t item) ts ->
  item ∈ ErrorHandler.pending_file (ErrorHandler.sweeps cb cfg ts w s).1.1 /\
  Forall (fun cs => ErrorHandler.commit_data item ∈ cs)
    (ErrorHandler.sweeps cb cfg ts w s).2 /\
  length (ErrorHandler.sweeps cb cfg ts w s).2 = length ts.
Proof.
  intros Hraise. revert w s.
  induction ts as [|t ts IH]; intros w s Hin Hdue; [done|].
  rewrite sweeps_cons. simpl.
  inversion Hdue as [|? ? Hnow Hrest]; subst.
  set (r := ErrorHandler.process_pending_commits cb cfg t w s).
  assert (item ∈ ErrorHandler.pending_file (ErrorHandler.sr_store r)) as Hin'.
  { subst r. rewrite process_pending_commits_file. by apply sweep_loop_raised. }
  assert (ErrorHandler.commit_data item ∈ ErrorHandler.sr_calls r) as Hcall.
  { subst r. rewrite process_pending_commits_calls, sweep_loop_calls. simpl.
    apply list_elem_of_fmap_2. by apply list_elem_of_filter. }
  destruct (IH (ErrorHandler.sr_world r) (ErrorHandler.sr_store r) Hin' Hrest)
    as (Hq & Hc & Hl).
  split; [done|]. split; [by constructor|]. by rewrite Hl.
Qed.

End Sweeps.

Lemma scheduler_loop_queue (cfg : Config) (now : Z) (q nq : list Scheduler.RetryItem)
    (lg : list LogRecord) :
  (foldl (Scheduler.process_item cfg now) (nq, lg) q).1 =
  nq ++ (q ≫= retried cfg now).
Proof.
  revert nq lg. induction q as [|item q IH]; intros nq lg.
  - simpl. by rewrite app_nil_r.
  - change (foldl (Scheduler.process_item cfg now) (nq, lg) (item :: q))
      with (foldl (Scheduler.process_item cfg now)
              (Scheduler.process_item cfg now (nq, lg) item) q).
    rewrite bind_cons.
    assert (Scheduler.process_item cfg now (nq, lg) item
            = (nq ++ retried cfg now item,
               (Scheduler.process_item cfg now (nq, lg) item).2)) as ->.
    { unfold Scheduler.process_item, retried, sdue.
      repeat case_bool_decide; simpl; by rewrite ?app_nil_r. }
    rewrite IH. by rewrite <- app_assoc.
Qed.

Lemma scheduler_sweep_queue (cfg : Config) (now : Z) (st : Scheduler.State)
    (q : list Scheduler.RetryItem) :
  Scheduler.queue_file st = Some q ->
  Scheduler.queue_file (Scheduler._process_pending_commits cfg now st) =
  Some (q ≫= retried cfg now).
Proof.
  intros Hq. unfold Scheduler._process_pending_commits. rewrite Hq.
  pose proof (scheduler_loop_queue cfg now q [] (Scheduler.log st)) as Hl.
  destruct (foldl _ _ q) as [nq lg]. simpl in *. by rewrite Hl.
Qed.

(** ** The claims on the retry queue *)

(** C1 (as the code has it): an item queued with [retry_count = 0] and
    [max_retries >= 1] whose retry returns a failure every time is retried in
    each of the next [max_retries] sweeps that find it due -- once per sweep,
    so [max_retries] times after its first failure, [max_retries + 1]
    attempts in all -- and is gone from the queue after the last of them; no
    later sweep calls the callback on it, and it is not in the queue
    again. *)
Theorem C1_retried_max_retries_times {World : Type}
    (cb : World -> ErrorHandler.CommitData -> ErrorHandler.CallbackResult * World)
    (cfg : Config) (d : ErrorHandler.CommitData) (item : ErrorHandler.PendingItem)
    (ts later : list Z) (w : World) (s : ErrorHandler.Store) :
  always_fails cb d ->
  filter (has_data d) (ErrorHandler.pending_file s) = [item] ->
  ErrorHandler.retry_count item = 0 ->
  1 <= ErrorHandler.max_retries item ->
  Py.len ts = ErrorHandler.max_retries item ->
  due_at_each cfg (ErrorHandler.next_retry item) ts ->
  let r1 := ErrorHandler.sweeps cb cfg ts w s in
  let r2 := ErrorHandler.sweeps cb cfg later r1.1.2 r1.1.1 in
  Forall (fun cs => attempts d cs = 1%nat) r1.2 /\
  Py.len r1.2 = ErrorHandler.max_retries item /\
  filter (has_data d) (ErrorHandler.pending_file r1.1.1) = [] /\
  Forall (fun cs => attempts d cs = 0%nat) r2.2 /\
  length r2.2 = length later /\
  filter (has_data d) (ErrorHandler.pending_file r2.1.1) = [].
Proof.
  intros Hfail Hone Hzero Hmax Hlen Hdue r1 r2.
  destruct (sweeps_exhaust cb cfg d ts item w s) as (Hq & Hc & Hl);
    try done; try (unfold Py.len in Hlen; lia).
  destruct (sweeps_absent cb cfg d later r1.1.2 r1.1.1) as (Hq' & Hc' & Hl');
    try done.
  repeat split; try done.
  unfold Py.len in *. subst r1. by rewrite Hl.
Qed.

Lemma C1_witness :
  always_fails failing c1_data /\
  filter (has_data c1_data) (ErrorHandler.pending_file c1_store) = [c1_item] /\
  Py.len (ErrorHandler.sweeps failing c1_cfg c1_times tt c1_store).2 = 3.
Proof.
  assert (always_fails failing c1_data) as H1 by (intros w; reflexivity).
  assert (filter (has_data c1_data) (ErrorHandler.pending_file c1_store)
          = [c1_item]) as H2 by reflexivity.
  split; [exact H1|]. split; [exact H2|].
  refine (proj1 (proj2 (C1_retried_max_retries_times failing c1_cfg c1_data
            c1_item c1_times [] tt c1_store H1 H2 eq_refl _ eq_refl _))).
  - vm_compute. discriminate.
  - vm_compute. repeat split; discriminate.
Defined.

(** C1 fails as stated: with [retry_attempts = 3] the item is still queued
    after two failed retries, and the third sweep retries it once more:
    three retries after the first failure, not [maxAttempts - 1 = 2]. *)
Lemma C1_counterexample :
  retry_attempts c1_cfg = 3 /\
  ErrorHandler.retry_count <$>
    ErrorHandler.pending_file
      (ErrorHandler.sweeps failing c1_cfg (take 2 c1_times) tt c1_store).1.1 = [2] /\
  (ErrorHandler.sweeps failing c1_cfg c1_times tt c1_store).2 =
    [[c1_data]; [c1_data]; [c1_data]] /\
  ErrorHandler.pending_file
    (ErrorHandler.sweeps failing c1_cfg c1_times tt c1_store).1.1 = [].
Proof. repeat split; reflexivity. Qed.

(** C7 (as the code has it): one sweep calls the callback on exactly the
    items with [next_retry <= now], in the order in which they lie in the
    queue, and every item that is not yet due is still in the queue
    afterwards; the scheduler's own sweep likewise rewrites each entry of its
    queue in place, leaving the entries that are not due as they are. *)
Theorem C7_sweep_takes_due_items_in_queue_order {World : Type}
    (cb : World -> ErrorHandler.CommitData -> ErrorHandler.CallbackResult * World)
    (cfg : Config) (now : Z) (w : World) (s : ErrorHandler.Store) :
  let r := ErrorHandler.process_pending_commits cb cfg now w s in
  ErrorHandler.sr_calls r =
    (ErrorHandler.commit_data <$> filter (due now) (ErrorHandler.pending_file s)) /\
  (forall item,
     item ∈ ErrorHandler.pending_file s -> ~ due now item ->
     item ∈ ErrorHandler.pending_file (ErrorHandler.sr_store r)) /\
  (forall st q,
     Scheduler.queue_file st = Some q ->
     Scheduler.queue_file (Scheduler._process_pending_commits cfg now st) =
       Some (q ≫= retried cfg now) /\
     forall item, item ∈ q -> ~ sdue now item -> item ∈ q ≫= retried cfg now).
Proof.
  intros r. subst r. split; [|split].
  - rewrite process_pending_commits_calls, sweep_loop_calls. done.
  - intros item Hin Hnd. rewrite process_pending_commits_file.
    by apply sweep_loop_not_due.
  - intros st q Hq. split; [by apply scheduler_sweep_queue|].
    intros item Hin Hnd. apply list_elem_of_bind. exists item. split; [|done].
    unfold retried. rewrite bool_decide_eq_false_2 by done. set_solver.
Qed.

Lemma C7_witness :
  ErrorHandler.sr_calls c7_first = [c1_data].
Proof.
  exact (proj1 (C7_sweep_takes_due_items_in_queue_order failing c1_cfg
                  (Py.minutes 35) tt c7_store)).
Defined.

(** C7 fails as stated: after the first item was rescheduled to minute 65
    while the second, still waiting, is due at minute 50, the sweep at
    minute 70 finds both due and retries the first before the second:
    queue order, not ascending [next_retry]. *)
Lemma C7_counterexample :
  ErrorHandler.next_retry <$> ErrorHandler.pending_file (ErrorHandler.sr_store c7_first)
    = [Py.minutes 65; Py.minutes 50] /\
  ErrorHandler.sr_calls c7_second = [c1_data; [("b"%string, "x"%string)]].
Proof. split; reflexivity. Qed.

(** C10: an item that is due and whose retry raises on every call is left in
    the queue as it is -- the same [retry_count], the same [next_retry] -- by
    every sweep, and every sweep at or after its [next_retry] calls the
    callback on it again, for any number of sweeps. *)
Theorem C10_raising_retry_is_never_counted {World : Type}
    (cb : World -> ErrorHandler.CommitData -> ErrorHandler.CallbackResult * World)
    (cfg : Config) (item : ErrorHandler.PendingItem) (ts : list Z)
    (w : World) (s : ErrorHandler.Store) :
  always_raises cb (ErrorHandler.commit_data item) ->
  item ∈ ErrorHandler.pending_file s ->
  Forall (fun t => due t item) ts ->
  let r := ErrorHandler.sweeps cb cfg ts w s in
  item ∈ ErrorHandler.pending_file r.1.1 /\
  Forall (fun cs => ErrorHandler.commit_data item ∈ cs) r.2 /\
  length r.2 = length ts.
Proof. intros Hr Hin Hdue r. by apply sweeps_raised. Qed.

Lemma C10_witness :
  always_raises raising (ErrorHandler.commit_data c1_item) /\
  c1_item ∈ ErrorHandler.pending_file
    (ErrorHandler.sweeps raising c1_cfg c1_times tt c1_store).1.1.
Proof.
  assert (always_raises raising (ErrorHandler.commit_data c1_item)) as H1
    by (intros w; reflexivity).
  split; [exact H1|].
  refine (proj1 (C10_raising_retry_is_never_counted raising c1_cfg c1_item
            c1_times tt c1_store H1 _ _)).
  - apply list_elem_of_singleton. reflexivity.
  - unfold c1_times.
    repeat (apply List.Forall_cons; [vm_compute; discriminate|]).
    apply List.Forall_nil.
Defined.

(** ** Planning the day *)

Lemma replace_hour_valid (now h : Z) :
  0 <= h <= 23 -> Datetime.replace_hour now h = Some (instant now h).
Proof.
  intros Hh. unfold Datetime.replace_hour, instant.
  by rewrite bool_decide_eq_true_2.
Qed.

Lemma replace_hour_invalid (now h : Z) :
  ~ (0 <= h <= 23) -> Datetime.replace_hour now h = None.
Proof.
  intros Hh. unfold Datetime.replace_hour. by rewrite bool_decide_eq_false_2.
Qed.

Lemma minute_range (t : Z) : 0 <= Datetime.minute t <= 59.
Proof.
  unfold Datetime.minute, Datetime.us_per_hour, Datetime.us_per_minute.
  pose proof (Z.mod_pos_bound t 3600000000 ltac:(lia)) as Hm.
  split.
  - apply Z.div_pos; lia.
  - apply Z.lt_succ_r. apply Z.div_lt_upper_bound; lia.
Qed.

Lemma replace_minute_plus5 (now : Z) :
  Datetime.minute now <= 54 ->
  Datetime.replace_minute now (Datetime.minute now + 5) = Some (now + Py.minutes 5).
Proof.
  intros Hm. pose proof (minute_range now) as Hr.
  unfold Datetime.replace_minute. rewrite bool_decide_eq_true_2 by lia.
  f_equal. unfold Py.minutes, Datetime.us_per_minute. lia.
Qed.

Lemma replace_minute_raises (now : Z) :
  55 <= Datetime.minute now ->
  Datetime.replace_minute now (Datetime.minute now + 5) = None.
Proof.
  intros Hm. unfold Datetime.replace_minute.
  by rewrite bool_decide_eq_false_2 by lia.
Qed.

Lemma half_between (d : Z) : Z.min 0 d <= Datetime.half d <= Z.max 0 d.
Proof.
  unfold Datetime.half.
  pose proof (Z.div_mod d 2 ltac:(lia)) as Hd.
  pose proof (Z.mod_pos_bound d 2 ltac:(lia)) as Hr.
  destruct (bool_decide (d `mod` 2 = 1) && bool_decide ((d `div` 2) `mod` 2 = 1))
    eqn:Hodd.
  - apply andb_true_iff in Hodd as [H1 H2].
    apply bool_decide_eq_true_1 in H1. lia.
  - lia.
Qed.

Lemma midpoint_between (a b : Z) : between a b (midpoint a b).
Proof.
  unfold between, midpoint. pose proof (half_between (b - a)). lia.
Qed.

Lemma clamp_between (a b t : Z) : between a b (Scheduler.clamp a b t).
Proof.
  unfold between, Scheduler.clamp. repeat case_bool_decide; lia.
Qed.

Lemma randint_range (lo hi : Z) (g : Random.Rng) :
  lo <= hi ->
  exists n, Random.randint lo hi g = Some (n, Random.advance g) /\ lo <= n <= hi.
Proof.
  intros Hle. unfold Random.randint. rewrite bool_decide_eq_true_2 by done.
  eexists; split; [done|].
  pose proof (Z.mod_pos_bound (g 0%nat) (hi - lo + 1) ltac:(lia)). lia.
Qed.

Lemma randint_raises (lo hi : Z) (g : Random.Rng) :
  hi < lo -> Random.randint lo hi g = None.
Proof.
  intros Hlt. unfold Random.randint. by rewrite bool_decide_eq_false_2 by lia.
Qed.

Section PlanningFacts.

Variable float_offset : Z -> Z -> Z -> Z.
Variable cfg : Config.

Lemma spread_cons (st et n i : Z) (rest : list Z) (g : Random.Rng)
    (acc : list Z) :
  Scheduler.spread float_offset cfg st et n (i :: rest) g acc =
  '(commit_time, g) ←
    (if vary_commit_times cfg
     then '(jitter, g') ← Random.randint (-15) 15 g;
          Some (st + float_offset (et - st) n i + Py.minutes jitter, g')
     else Some (st + float_offset (et - st) n i, g));
  Scheduler.spread float_offset cfg st et n rest g
    (acc ++ [Scheduler.clamp st et commit_time]).
Proof. reflexivity. Qed.

Lemma spread_total (st et n : Z) (indices : list Z) (g : Random.Rng)
    (acc : list Z) :
  exists times g',
    Scheduler.spread float_offset cfg st et n indices g acc = Some (acc ++ times, g') /\
    length times = length indices /\
    Forall (between st et) times.
Proof.
  revert g acc. induction indices as [|i indices IH]; intros g acc.
  - exists [], g. simpl. by rewrite app_nil_r.
  - rewrite spread_cons. destruct (vary_commit_times cfg).
    + destruct (randint_range (-15) 15 g ltac:(lia)) as (j & Hj & _).
      rewrite Hj. simpl.
      match goal with
      | |- context [Scheduler.spread _ _ _ _ _ _ ?g1 ?a1] =>
          destruct (IH g1 a1) as (times & g' & Heq & Hlen & Hall)
      end.
      eexists (_ :: times), g'. rewrite Heq, <- app_assoc. simpl.
      split; [done|]. split; [by rewrite Hlen|].
      constructor; [apply clamp_between|done].
    + simpl.
      match goal with
      | |- context [Scheduler.spread _ _ _ _ _ _ ?g1 ?a1] =>
          destruct (IH g1 a1) as (times & g' & Heq & Hlen & Hall)
      end.
      eexists (_ :: times), g'. rewrite Heq, <- app_assoc. simpl.
      split; [done|]. split; [by rewrite Hlen|].
      constructor; [apply clamp_between|done].
Qed.

(** Once the start of the window is settled, the generation returns. *)
Lemma generate_from_start (now n sh eh st : Z) (g : Random.Rng) :
  0 <= sh <= 23 -> 0 <= eh <= 23 ->
  (if bool_decide (instant now sh < now)
   then Datetime.replace_minute now (Datetime.minute now + 5)
   else Some (instant now sh)) = Some st ->
  exists times g',
    Scheduler._generate_commit_times float_offset cfg now n sh eh g
      = Some (times, g') /\
    Py.len times = Z.max n 0 /\
    Forall (between st (instant now eh)) times /\
    Sorted Z.le times /\
    (n = 1 -> times = [midpoint st (instant now eh)]).
Proof.
  intros Hsh Heh Hst. unfold Scheduler._generate_commit_times.
  rewrite !replace_hour_valid by done. simpl. rewrite Hst. simpl.
  clear Hst.
  case_bool_decide as Hn0.
  { exists [], g. split; [done|]. split; [unfold Py.len; simpl; lia|].
    split; [constructor|]. split; [constructor|]. lia. }
  case_bool_decide as Hn1.
  { eexists [_], g. split; [done|]. subst n. split; [done|].
    split; [repeat constructor; apply midpoint_between|].
    split; [repeat constructor|]. done. }
  destruct (spread_total st (instant now eh) n (seqZ 0 n) g [])
    as (times & g' & -> & Hlen & Hall).
  simpl. exists (merge_sort Z.le times), g'.
  split; [done|]. split; [|split; [|split]].
  - unfold Py.len. rewrite merge_sort_Permutation, Hlen, length_seqZ. lia.
  - by rewrite merge_sort_Permutation.
  - apply Sorted_merge_sort. intros x y. lia.
  - lia.
Qed.

Lemma schedule_all_cons (t : Z) (rest : list Z) (g : Random.Rng)
    (js : list Scheduler.Job) :
  Scheduler.schedule_all cfg (t :: rest) g js =
  '(commit_time, g) ←
    (if random_delays cfg
     then '(delay_minutes, g') ← Random.randint 0 30 g;
          Some (t + Py.minutes delay_minutes, g')
     else Some (t, g));
  Scheduler.schedule_all cfg rest g
    (js ++ [{| Scheduler.job_at := (Datetime.hour commit_time,
                                    Datetime.minute commit_time);
               Scheduler.job_scheduled_time := commit_time |}]).
Proof. reflexivity. Qed.

Lemma schedule_all_total (times : list Z) (g : Random.Rng)
    (js : list Scheduler.Job) :
  exists new g',
    Scheduler.schedule_all cfg times g js = Some (js ++ new, g') /\
    Forall2 (fun t j =>
               t <= Scheduler.job_scheduled_time j <= t + Py.minutes 30 /\
               (random_delays cfg = false -> Scheduler.job_scheduled_time j = t))
      times new.
Proof.
  revert g js. induction times as [|t times IH]; intros g js.
  - exists [], g. simpl. rewrite app_nil_r. split; [done|constructor].
  - rewrite schedule_all_cons. destruct (random_delays cfg) eqn:Hrd.
    + destruct (randint_range 0 30 g ltac:(lia)) as (dl & Hdl & Hrange).
      rewrite Hdl. simpl.
      match goal with
      | |- context [Scheduler.schedule_all _ _ ?g1 ?a1] =>
          destruct (IH g1 a1) as (new & g' & Heq & Hall)
      end.
      eexists (_ :: new), g'. rewrite Heq, <- app_assoc. simpl. split; [done|].
      constructor; [|done]. simpl. unfold Py.minutes. split; [lia|done].
    + simpl.
      match goal with
      | |- context [Scheduler.schedule_all _ _ ?g1 ?a1] =>
          destruct (IH g1 a1) as (new & g' & Heq & Hall)
      end.
      eexists (_ :: new), g'. rewrite Heq, <- app_assoc. simpl. split; [done|].
      constructor; [|done]. simpl. unfold Py.minutes. split; [lia|done].
Qed.

End PlanningFacts.

Lemma instant_mono (now h1 h2 : Z) : h1 <= h2 -> instant now h1 <= instant now h2.
Proof. unfold instant, Datetime.us_per_hour. lia. Qed.

Lemma between_ordered (a b t : Z) : a <= b -> between a b t -> a <= t <= b.
Proof. unfold between. lia. Qed.

(** C6 (as the code has it): for [num_commits = 1] the plan is the single
    timestamp halfway between the start the generation settles on and the
    end of the window, without jitter and without drawing from the random
    source: the midpoint of the active window when the plan is generated no
    later than the window's start, and the midpoint of what is left of it,
    from [now + 5 minutes], when generated later.  For the hours 9 to 21 the
    midpoint of the window is 15:00 of that day. *)
Theorem C6_single_commit_at_midpoint (float_offset : Z -> Z -> Z -> Z)
    (cfg : Config) (now sh eh : Z) (g : Random.Rng) :
  0 <= sh <= 23 -> 0 <= eh <= 23 ->
  (now <= instant now sh ->
   Scheduler._generate_commit_times float_offset cfg now 1 sh eh g =
     Some ([midpoint (instant now sh) (instant now eh)], g)) /\
  (instant now sh < now -> Datetime.minute now <= 54 ->
   Scheduler._generate_commit_times float_offset cfg now 1 sh eh g =
     Some ([midpoint (now + Py.minutes 5) (instant now eh)], g)) /\
  midpoint (instant now 9) (instant now 21) = instant now 15.
Proof.
  intros Hsh Heh. split; [|split].
  - intros Hearly. unfold Scheduler._generate_commit_times.
    rewrite !replace_hour_valid by done. simpl.
    by rewrite bool_decide_eq_false_2 by lia.
  - intros Hlate Hmin. unfold Scheduler._generate_commit_times.
    rewrite !replace_hour_valid by done. simpl.
    rewrite bool_decide_eq_true_2 by done.
    by rewrite replace_minute_plus5 by done.
  - unfold midpoint, instant, Datetime.us_per_hour.
    replace (Datetime.toordinal now * Datetime.us_per_day + 21 * 3600000000
             - (Datetime.toordinal now * Datetime.us_per_day + 9 * 3600000000))
      with 43200000000 by lia.
    change (Datetime.half 43200000000) with 21600000000. lia.
Qed.

Lemma C6_witness :
  tue 8 0 <= instant (tue 8 0) 9 /\
  Scheduler._generate_commit_times Scheduler.exact_offset default_config
    (tue 8 0) 1 9 21 (Random.constant 0) =
  Some ([midpoint (instant (tue 8 0) 9) (instant (tue 8 0) 21)], Random.constant 0).
Proof.
  assert (tue 8 0 <= instant (tue 8 0) 9) as H by (vm_compute; discriminate).
  split; [exact H|].
  refine (proj1 (C6_single_commit_at_midpoint Scheduler.exact_offset
                   default_config (tue 8 0) 9 21 (Random.constant 0) _ _) H);
    lia.
Defined.

(** C6 fails as stated: generated on a Tuesday at 10:00 with the hours 9 to
    21, the single timestamp is 15:32:30, halfway between 10:05 and 21:00,
    not the midpoint 15:00 of the active window. *)
Lemma C6_counterexample :
  plan_of (Scheduler._generate_commit_times Scheduler.exact_offset default_config
             (tue 10 0) 1 9 21 (Random.constant 0))
    = Some [tue 15 32 + 30000000] /\
  tue 15 32 + 30000000 <> midpoint (instant (tue 10 0) 9) (instant (tue 10 0) 21) /\
  midpoint (instant (tue 10 0) 9) (instant (tue 10 0) 21) = tue 15 0.
Proof.
  split; [reflexivity|]. split; [|reflexivity].
  vm_compute. discriminate.
Qed.

(** C5 (as the code has it): when the start of the window has passed and
    the minute of [now] is at most 54, the generation returns, the start it
    uses is [now + 5 minutes], and the plan has [num_commits] timestamps,
    sorted, each between that start and the end of the window; this also
    holds when [now + 5 minutes] is past the end of the window, where the
    plan is therefore not empty. *)
Theorem C5_late_start_keeps_count (float_offset : Z -> Z -> Z -> Z)
    (cfg : Config) (now n sh eh : Z) (g : Random.Rng) :
  0 <= sh <= 23 -> 0 <= eh <= 23 -> 0 <= n ->
  instant now sh < now -> Datetime.minute now <= 54 ->
  exists times g',
    Scheduler._generate_commit_times float_offset cfg now n sh eh g
      = Some (times, g') /\
    Py.len times = n /\
    Forall (between (now + Py.minutes 5) (instant now eh)) times /\
    Sorted Z.le times /\
    (instant now eh < now + Py.minutes 5 -> 1 <= n -> times <> []).
Proof.
  intros Hsh Heh Hn Hlate Hmin.
  destruct (generate_from_start float_offset cfg now n sh eh
              (now + Py.minutes 5) g) as (times & g' & Hgen & Hlen & Hall & Hs & _);
    try done.
  { rewrite bool_decide_eq_true_2 by done. by apply replace_minute_plus5. }
  exists times, g'. split; [done|]. split; [lia|]. split; [done|].
  split; [done|].
  intros _ Hn1 ->. unfold Py.len in Hlen. simpl in Hlen. lia.
Qed.

Lemma C5_witness :
  instant (tue 22 10) 9 < tue 22 10 /\ Datetime.minute (tue 22 10) <= 54 /\
  exists times g',
    Scheduler._generate_commit_times Scheduler.exact_offset default_config
      (tue 22 10) 3 9 21 (Random.constant 15) = Some (times, g') /\
    Py.len times = 3.
Proof.
  assert (instant (tue 22 10) 9 < tue 22 10) as H1 by reflexivity.
  assert (Datetime.minute (tue 22 10) <= 54) as H2 by (vm_compute; discriminate).
  split; [exact H1|]. split; [exact H2|].
  destruct (C5_late_start_keeps_count Scheduler.exact_offset default_config
              (tue 22 10) 3 9 21 (Random.constant 15)
              ltac:(lia) ltac:(lia) ltac:(lia) H1 H2)
    as (times & g' & Hgen & Hlen & _).
  exists times, g'. split; [exact Hgen | exact Hlen].
Defined.

(** C5 fails as stated: at 22:10, past the end of the window 9 to 21, the
    plan for one commit is not empty but holds 21:37:30, halfway between
    22:15 and 21:00; and at 10:57 the generation raises, because
    [now.replace(minute=now.minute + 5)] asks for minute 62. *)
Lemma C5_counterexample :
  plan_of (Scheduler._generate_commit_times Scheduler.exact_offset default_config
             (tue 22 10) 1 9 21 (Random.constant 0))
    = Some [tue 21 37 + 30000000] /\
  Scheduler._generate_commit_times Scheduler.exact_offset default_config
    (tue 10 57) 1 9 21 (Random.constant 0) = None.
Proof. split; reflexivity. Qed.

Lemma start_settles_sound (now sh eh : Z) :
  sh <= eh ->
  start_settles now sh eh ->
  exists st,
    (if bool_decide (instant now sh < now)
     then Datetime.replace_minute now (Datetime.minute now + 5)
     else Some (instant now sh)) = Some st /\
    instant now sh <= st <= instant now eh.
Proof.
  intros Hle [Hearly|(Hlate & Hmin & Hend)].
  - exists (instant now sh). rewrite bool_decide_eq_false_2 by lia.
    split; [done|]. pose proof (instant_mono now sh eh Hle). lia.
  - exists (now + Py.minutes 5). rewrite bool_decide_eq_true_2 by done.
    split; [by apply replace_minute_plus5|].
    unfold Py.minutes in *. lia.
Qed.

(** C4 (as the code has it): for a quota [0 <= min <= max] and hours
    [0 <= start < end <= 23], on a day that is planned and at a time from
    which the start of the window can be settled, the count [n] is drawn
    with [min <= n <= max], the generated plan has [n] timestamps, all within
    the active window and sorted ascending, and planning returns.  The jobs
    it adds are one per timestamp, in order, each at its timestamp plus a
    delay of 0 to 30 minutes; they are the timestamps of the plan itself when
    [random_delays] is off. *)
Theorem C4_plan_within_window (float_offset : Z -> Z -> Z -> Z)
    (cfg : Config) (now : Z) (g : Random.Rng) (s : Scheduler.State) :
  0 <= min_commits_per_day cfg <= max_commits_per_day cfg ->
  0 <= active_hours_start cfg ->
  active_hours_start cfg < active_hours_end cfg <= 23 ->
  plans_today cfg now ->
  start_settles now (active_hours_start cfg) (active_hours_end cfg) ->
  exists n g1 times g2 s' g3 new,
    Random.randint (min_commits_per_day cfg) (max_commits_per_day cfg) g
      = Some (n, g1) /\
    min_commits_per_day cfg <= n <= max_commits_per_day cfg /\
    Scheduler._generate_commit_times float_offset cfg now n
      (active_hours_start cfg) (active_hours_end cfg) g1 = Some (times, g2) /\
    Py.len times = n /\
    Forall (fun t => instant now (active_hours_start cfg) <= t
                     <= instant now (active_hours_end cfg)) times /\
    Sorted Z.le times /\
    Scheduler._plan_daily_commits float_offset cfg now g s = Some (s', g3) /\
    Scheduler.jobs s' = Scheduler.jobs s ++ new /\
    Forall2 (fun t j =>
               t <= Scheduler.job_scheduled_time j <= t + Py.minutes 30 /\
               (random_delays cfg = false -> Scheduler.job_scheduled_time j = t))
      times new.
Proof.
  intros Hquota Hstart0 Hhours Hplan Hstart.
  destruct (randint_range (min_commits_per_day cfg) (max_commits_per_day cfg) g)
    as (n & Hn & Hrange); [lia|].
  destruct (start_settles_sound now (active_hours_start cfg)
              (active_hours_end cfg)) as (st & Hst & Hin); [lia|done|].
  destruct (generate_from_start float_offset cfg now n
              (active_hours_start cfg) (active_hours_end cfg) st
              (Random.advance g))
    as (times & g2 & Hgen & Hlen & Hall & Hsorted & _); [lia|lia|done|].
  destruct (schedule_all_total cfg times g2 (Scheduler.jobs s))
    as (new & g3 & Hsched & Hjobs).
  exists n, (Random.advance g), times, g2.
  eexists _, g3, new.
  split; [done|]. split; [done|]. split; [done|]. split; [lia|].
  split.
  { eapply Forall_impl; [exact Hall|].
    intros t Ht. apply between_ordered in Ht; lia. }
  split; [done|].
  unfold Scheduler._plan_daily_commits. unfold plans_today in Hplan.
  rewrite Hplan, Hn. simpl. rewrite Hgen. simpl. rewrite Hsched. simpl.
  done.
Qed.

Lemma C4_witness :
  plans_today c4_cfg_wide (tue 8 0) /\
  start_settles (tue 8 0) 9 21 /\
  exists s' g',
    Scheduler._plan_daily_commits Scheduler.exact_offset c4_cfg_wide (tue 8 0)
      (Random.constant 0) Scheduler.init = Some (s', g') /\
    length (Scheduler.jobs s') = 2%nat.
Proof.
  assert (plans_today c4_cfg_wide (tue 8 0)) as H1 by reflexivity.
  assert (start_settles (tue 8 0) 9 21) as H2
    by (left; vm_compute; discriminate).
  split; [exact H1|]. split; [exact H2|].
  destruct (C4_plan_within_window Scheduler.exact_offset c4_cfg_wide (tue 8 0)
              (Random.constant 0) Scheduler.init
              ltac:(simpl; lia) ltac:(simpl; lia) ltac:(simpl; lia) H1 H2)
    as (n & g1 & times & g2 & s' & g3 & new & Hn & Hr & Hgen & Hlen & _ & _
        & Hplan & Hjobs & Hall).
  exists s', g3. split; [exact Hplan|].
  rewrite Hjobs. simpl. rewrite <- (Forall2_length _ _ _ Hall).
  simpl in Hr. unfold Py.len in Hlen. lia.
Defined.

(** C4 fails as stated for the timestamps that are scheduled: with the
    quota 2 to 2 on the hours 9 to 21, planned at 08:00 with the draws giving
    no jitter and the delays 0 and 30, the plan 09:00, 21:00 is scheduled at
    09:00 and 21:30, after the end of the window; with the quota 3 to 3 on
    the hours 9 to 10, the plan 09:15, 09:15, 10:00 is scheduled at 09:45,
    09:15 and 10:00, which is not ascending.  (The offsets of these two plans
    are whole minutes, which the float computation gives exactly.)  And the
    plan itself leaves the window when it is generated after the window's
    end: at 22:10 the single timestamp is 21:37:30. *)
Lemma C4_counterexample :
  scheduled_of
    (Scheduler._plan_daily_commits Scheduler.exact_offset c4_cfg_wide (tue 8 0)
       (Random.of_list [0; 15; 15; 0; 30]) Scheduler.init)
    = Some [tue 9 0; tue 21 30] /\
  instant (tue 8 0) (active_hours_end c4_cfg_wide) < tue 21 30 /\
  scheduled_of
    (Scheduler._plan_daily_commits Scheduler.exact_offset c4_cfg_narrow (tue 8 0)
       (Random.of_list [0; 30; 0; 15; 30; 0; 0]) Scheduler.init)
    = Some [tue 9 45; tue 9 15; tue 10 0] /\
  tue 9 15 < tue 9 45 /\
  plan_of (Scheduler._generate_commit_times Scheduler.exact_offset c4_cfg_wide
             (tue 22 10) 1 9 21 (Random.constant 0))
    = Some [tue 21 37 + 30000000] /\
  instant (tue 22 10) (active_hours_end c4_cfg_wide) < tue 21 37 + 30000000.
Proof. repeat split; reflexivity. Qed.

(** * Further properties of the error handler *)

Lemma slice_from_nonneg {A : Type} (k : Z) (l : list A) :
  0 <= k -> Py.slice_from k l = drop (Z.to_nat k) l.
Proof.
  intros Hk. unfold Py.slice_from. rewrite bool_decide_eq_false_2 by lia.
  destruct (decide (k <= Z.of_nat (length l))) as [Hle|Hgt].
  - by rewrite Z.min_l by lia.
  - rewrite Z.min_r by lia. rewrite Nat2Z.id.
    rewrite drop_all. by rewrite drop_ge by lia.
Qed.

Lemma slice_from_neg {A : Type} (k : Z) (l : list A) :
  k < 0 -> Py.slice_from k l = last_n (Z.to_nat (- k)) l.
Proof.
  intros Hk. unfold Py.slice_from, last_n.
  rewrite bool_decide_eq_true_2 by lia. f_equal. lia.
Qed.

Lemma save_error_last (cfg : Config) (e : ErrorHandler.ErrorInfo)
    (errors : list ErrorHandler.ErrorInfo) :
  1 <= max_stored_errors cfg ->
  last (ErrorHandler._save_error cfg e errors) = Some e.
Proof.
  intros Hm. unfold ErrorHandler._save_error.
  rewrite keep_last_spec by done.
  unfold last_n. rewrite length_app. simpl.
  rewrite drop_app_le by lia. by rewrite last_snoc.
Qed.

(** X1: with room for at least one error, [_save_error] leaves the newest
    [max_stored_errors] entries of the file extended by the new error: the
    file never holds more than [max_stored_errors] entries and the error just
    saved is its last entry. *)
Theorem save_error_keeps_newest (cfg : Config) (e : ErrorHandler.ErrorInfo)
    (errors : list ErrorHandler.ErrorInfo) :
  1 <= max_stored_errors cfg ->
  ErrorHandler._save_error cfg e errors =
    last_n (Z.to_nat (max_stored_errors cfg)) (errors ++ [e]) /\
  Py.len (ErrorHandler._save_error cfg e errors) <= max_stored_errors cfg /\
  last (ErrorHandler._save_error cfg e errors) = Some e.
Proof.
  intros Hm. split; [|split].
  - unfold ErrorHandler._save_error. by rewrite keep_last_spec.
  - unfold ErrorHandler._save_error. rewrite keep_last_spec by done.
    unfold Py.len. rewrite last_n_length. lia.
  - by apply save_error_last.
Qed.

Lemma save_error_keeps_newest_witness :
  1 <= max_stored_errors (cfg_with_queue 1 3 30) /\
  last (ErrorHandler._save_error (cfg_with_queue 1 3 30) (an_error 7)
          [an_error 1; an_error 2]) = Some (an_error 7).
Proof.
  assert (1 <= max_stored_errors (cfg_with_queue 1 3 30)) as H
    by (vm_compute; discriminate).
  split; [exact H|].
  exact (proj2 (proj2 (save_error_keeps_newest (cfg_with_queue 1 3 30)
                         (an_error 7) [an_error 1; an_error 2] H))).
Defined.

(** X2: [get_error_summary(limit)] returns the last [limit] stored errors
    for a positive [limit] (all of them when there are fewer), but for
    [limit = 0] it returns every stored error, not none. *)
Theorem get_error_summary_limit (limit : Z) (s : ErrorHandler.Store) :
  0 <= limit ->
  ErrorHandler.get_error_summary limit s =
    if bool_decide (limit = 0) then ErrorHandler.errors_file s
    else last_n (Z.to_nat limit) (ErrorHandler.errors_file s).
Proof.
  intros Hl. unfold ErrorHandler.get_error_summary.
  case_bool_decide as H0.
  - subst limit. by rewrite slice_from_nonneg.
  - rewrite slice_from_neg by lia. f_equal. lia.
Qed.

Lemma get_error_summary_limit_witness :
  0 <= 0 /\
  ErrorHandler.get_error_summary 0
    {| ErrorHandler.pending_file := [];
       ErrorHandler.errors_file := [an_error 1; an_error 2];
       ErrorHandler.stats_file := ∅; ErrorHandler.log := [] |}
  = [an_error 1; an_error 2].
Proof.
  split; [lia|].
  exact (get_error_summary_limit 0 _ ltac:(lia)).
Defined.

(** X3: a [max_queue_size] of zero or less does not close the queue.  With
    zero nothing is ever dropped and every enqueue makes the queue one item
    longer; with a negative size the enqueue drops that many of the oldest
    entries instead of keeping that many of the newest. *)
Theorem add_to_pending_queue_without_capacity (cfg : Config)
    (s : ErrorHandler.Store) (r : Request) :
  max_queue_size cfg <= 0 ->
  ErrorHandler.pending_file (enqueue cfg s r) =
    drop (Z.to_nat (- max_queue_size cfg))
      (ErrorHandler.pending_file s ++ [new_item cfg r]) /\
  (max_queue_size cfg = 0 ->
   ErrorHandler.pending_file (enqueue cfg s r) =
     ErrorHandler.pending_file s ++ [new_item cfg r]).
Proof.
  intros Hm.
  assert (ErrorHandler.pending_file (enqueue cfg s r) =
          drop (Z.to_nat (- max_queue_size cfg))
            (ErrorHandler.pending_file s ++ [new_item cfg r])) as Heq.
  { unfold enqueue, ErrorHandler._add_to_pending_queue. simpl.
    rewrite bool_decide_eq_true_2.
    - apply slice_from_nonneg. lia.
    - unfold Py.len. rewrite length_app. simpl. lia. }
  split; [done|]. intros H0. rewrite Heq, H0. done.
Qed.

Lemma add_to_pending_queue_without_capacity_witness :
  max_queue_size (cfg_with_queue 0 3 30) <= 0 /\
  ErrorHandler.pending_file
    (enqueue (cfg_with_queue 0 3 30) (store_with [c2_old]) c2_new)
  = [c2_old; new_item (cfg_with_queue 0 3 30) c2_new].
Proof.
  assert (max_queue_size (cfg_with_queue 0 3 30) <= 0) as H
    by (vm_compute; discriminate).
  split; [exact H|].
  exact (proj2 (add_to_pending_queue_without_capacity (cfg_with_queue 0 3 30)
                  (store_with [c2_old]) c2_new H) eq_refl).
Defined.

Lemma get0_update_pending_stats (k : string) (now n : Z) (stats : gmap string Z) :
  k ≠ "pending_commits"%string -> k ≠ "last_update"%string ->
  Py.get0 k (ErrorHandler._update_pending_stats now n stats) = Py.get0 k stats.
Proof.
  intros H1 H2. unfold ErrorHandler._update_pending_stats.
  rewrite get0_insert_ne by done. by rewrite get0_insert_ne.
Qed.

Lemma pending_of_update_pending_stats (now n : Z) (stats : gmap string Z) :
  Py.get0 "pending_commits" (ErrorHandler._update_pending_stats now n stats) = n.
Proof. unfold ErrorHandler._update_pending_stats. by get0_simpl. Qed.

Lemma pending_of_update_stats (now : Z) (su fa : bool) (c : Z)
    (stats : gmap string Z) :
  Py.get0 "pending_commits" (ErrorHandler._update_stats now su fa c stats) =
  Py.get0 "pending_commits" stats.
Proof.
  unfold ErrorHandler._update_stats. destruct su, fa; by get0_simpl.
Qed.

Lemma counters_of_update_stats (now : Z) (su fa : bool) (c : Z)
    (stats : gmap string Z) :
  let stats' := ErrorHandler._update_stats now su fa c stats in
  Py.get0 "total_commits" stats' = Py.get0 "total_commits" stats + c /\
  Py.get0 "successful_commits" stats' =
    Py.get0 "successful_commits" stats + (if su then c else 0) /\
  Py.get0 "failed_commits" stats' =
    Py.get0 "failed_commits" stats + (if fa then c else 0).
Proof.
  unfold ErrorHandler._update_stats. destruct su, fa; get0_simpl; lia.
Qed.



Section SweepAccounting.

Context {World : Type}.
Variable cb : World -> ErrorHandler.CommitData -> ErrorHandler.CallbackResult * World.
Variable cfg : Config.
Variable now : Z.

Lemma process_item_accounting st item :
  let st' := ErrorHandler.process_item cb cfg now st item in
  let k := ErrorHandler.ls_stats st in
  let k' := ErrorHandler.ls_stats st' in
  ErrorHandler.processed k' = ErrorHandler.processed k + due_count now item /\
  ErrorHandler.succeeded k' + ErrorHandler.failed k' =
    ErrorHandler.succeeded k + ErrorHandler.failed k + due_count now item /\
  Py.len (ErrorHandler.ls_new_pending st') + ErrorHandler.removed k' =
    Py.len (ErrorHandler.ls_new_pending st) + ErrorHandler.removed k + 1 /\
  ErrorHandler.succeeded k <= ErrorHandler.succeeded k' /\
  ErrorHandler.failed k <= ErrorHandler.failed k' /\
  ErrorHandler.removed k <= ErrorHandler.removed k'.
Proof.
  unfold ErrorHandler.process_item, due_count, due, Py.len.
  destruct (bool_decide (ErrorHandler.next_retry item <= now)).
  - destruct (cb (ErrorHandler.ls_world st) (ErrorHandler.commit_data item))
      as [[[]|] w']; repeat case_bool_decide; simpl;
      rewrite ?length_app; simpl; lia.
  - simpl. rewrite length_app. simpl. lia.
Qed.

Lemma sweep_loop_accounting l st :
  let st' := ErrorHandler.sweep_loop cb cfg now st l in
  let k := ErrorHandler.ls_stats st in
  let k' := ErrorHandler.ls_stats st' in
  ErrorHandler.processed k' =
    ErrorHandler.processed k + Py.len (filter (due now) l) /\
  ErrorHandler.succeeded k' + ErrorHandler.failed k' =
    ErrorHandler.succeeded k + ErrorHandler.failed k
    + Py.len (filter (due now) l) /\
  Py.len (ErrorHandler.ls_new_pending st') + ErrorHandler.removed k' =
    Py.len (ErrorHandler.ls_new_pending st) + ErrorHandler.removed k + Py.len l /\
  ErrorHandler.succeeded k <= ErrorHandler.succeeded k' /\
  ErrorHandler.failed k <= ErrorHandler.failed k' /\
  ErrorHandler.removed k <= ErrorHandler.removed k'.
Proof.
  revert st. induction l as [|item l IH]; intros st.
  - simpl. unfold Py.len. simpl. lia.
  - unfold ErrorHandler.sweep_loop in *. simpl foldl.
    specialize (IH (ErrorHandler.process_item cb cfg now st item)).
    pose proof (process_item_accounting st item) as Hstep.
    simpl in IH, Hstep. simpl.
    assert (Py.len (filter (due now) (item :: l)) =
            due_count now item + Py.len (filter (due now) l)) as ->.
    { rewrite filter_cons. unfold due_count, Py.len.
      case_decide; [rewrite bool_decide_eq_true_2 by done
                   |rewrite bool_decide_eq_false_2 by done]; simpl; lia. }
    unfold Py.len in *. simpl length. lia.
Qed.

End SweepAccounting.

Section SweepTotals.

Context {World : Type}.
Variable cb : World -> ErrorHandler.CommitData -> ErrorHandler.CallbackResult * World.
Variable cfg : Config.
Variable now : Z.

Lemma process_pending_commits_stats w s :
  ErrorHandler.sr_stats (ErrorHandler.process_pending_commits cb cfg now w s) =
  ErrorHandler.ls_stats
    (ErrorHandler.sweep_loop cb cfg now
       (ErrorHandler.loop_init w (ErrorHandler.log s))
       (ErrorHandler.pending_file s)).
Proof.
  unfold ErrorHandler.process_pending_commits.
  by destruct (ErrorHandler.pending_file s) as [|item rest] eqn:Hp.
Qed.

Lemma sweep_signs (w : World) (s : ErrorHandler.Store) :
  let r := ErrorHandler.process_pending_commits cb cfg now w s in
  let k := ErrorHandler.sr_stats r in
  Py.len (ErrorHandler.pending_file (ErrorHandler.sr_store r))
    + ErrorHandler.removed k = Py.len (ErrorHandler.pending_file s) /\
  0 <= ErrorHandler.succeeded k /\ 0 <= ErrorHandler.failed k /\
  0 <= ErrorHandler.removed k /\
  ErrorHandler.processed k = ErrorHandler.succeeded k + ErrorHandler.failed k.
Proof.
  intros r k. subst r k.
  rewrite process_pending_commits_stats, process_pending_commits_file.
  pose proof (sweep_loop_accounting cb cfg now (ErrorHandler.pending_file s)
                (ErrorHandler.loop_init w (ErrorHandler.log s))) as Hacc.
  simpl in Hacc. unfold Py.len in *. simpl. simpl in Hacc. lia.
Qed.

(** X5: the counters a sweep returns add up.  [processed] is the number of
    items that were due, which is also the number of calls of the callback;
    each of them is counted either in [succeeded] or in [failed]; and every
    item of the old queue is either in the new queue or counted in
    [removed]. *)
Theorem sweep_counters_add_up (w : World) (s : ErrorHandler.Store) :
  let r := ErrorHandler.process_pending_commits cb cfg now w s in
  let k := ErrorHandler.sr_stats r in
  ErrorHandler.processed k =
    Py.len (filter (due now) (ErrorHandler.pending_file s)) /\
  ErrorHandler.processed k = Py.len (ErrorHandler.sr_calls r) /\
  ErrorHandler.processed k = ErrorHandler.succeeded k + ErrorHandler.failed k /\
  Py.len (ErrorHandler.pending_file (ErrorHandler.sr_store r))
    + ErrorHandler.removed k = Py.len (ErrorHandler.pending_file s) /\
  0 <= ErrorHandler.succeeded k /\ 0 <= ErrorHandler.failed k /\
  0 <= ErrorHandler.removed k.
Proof.
  intros r k. subst r k.
  rewrite process_pending_commits_stats, process_pending_commits_file,
    process_pending_commits_calls, sweep_loop_calls.
  pose proof (sweep_loop_accounting cb cfg now (ErrorHandler.pending_file s)
                (ErrorHandler.loop_init w (ErrorHandler.log s))) as Hacc.
  simpl in Hacc. unfold Py.len in *. simpl.
  rewrite length_fmap. simpl in Hacc. lia.
Qed.

Lemma update_stats_if_any_counters (su fa : bool) (c : Z)
    (stats : gmap string Z) :
  0 <= c ->
  let stats' := update_stats_if_any now su fa c stats in
  Py.get0 "total_commits" stats' = Py.get0 "total_commits" stats + c /\
  Py.get0 "successful_commits" stats' =
    Py.get0 "successful_commits" stats + (if su then c else 0) /\
  Py.get0 "failed_commits" stats' =
    Py.get0 "failed_commits" stats + (if fa then c else 0) /\
  Py.get0 "pending_commits" stats' = Py.get0 "pending_commits" stats.
Proof.
  intros Hc. unfold update_stats_if_any. case_bool_decide as Hpos.
  - pose proof (counters_of_update_stats now su fa c stats) as (? & ? & ?).
    rewrite pending_of_update_stats. done.
  - assert (c = 0) as -> by lia. destruct su, fa; simpl; lia.
Qed.

Lemma process_pending_commits_stats_file w s :
  ErrorHandler.pending_file s <> [] ->
  let r := ErrorHandler.process_pending_commits cb cfg now w s in
  ErrorHandler.stats_file (ErrorHandler.sr_store r) =
  update_stats_if_any now false true (ErrorHandler.failed (ErrorHandler.sr_stats r))
    (update_stats_if_any now true false
       (ErrorHandler.succeeded (ErrorHandler.sr_stats r))
       (ErrorHandler._update_pending_stats now
          (Py.len (ErrorHandler.pending_file (ErrorHandler.sr_store r)))
          (ErrorHandler.stats_file s))).
Proof.
  intros Hne. unfold ErrorHandler.process_pending_commits.
  by destruct (ErrorHandler.pending_file s) as [|item rest] eqn:Hp.
Qed.

(** X6: a sweep of a non-empty queue adds the number of items it processed
    to [total_commits], its successes to [successful_commits] and its
    failures to [failed_commits] -- every retry counts as a commit of its own
    in the statistics -- and sets [pending_commits] to the length of the
    queue it leaves. *)
Theorem sweep_updates_statistics (w : World) (s : ErrorHandler.Store) :
  ErrorHandler.pending_file s <> [] ->
  let r := ErrorHandler.process_pending_commits cb cfg now w s in
  let k := ErrorHandler.sr_stats r in
  let before := ErrorHandler.stats_file s in
  let after := ErrorHandler.stats_file (ErrorHandler.sr_store r) in
  Py.get0 "total_commits" after =
    Py.get0 "total_commits" before + ErrorHandler.processed k /\
  Py.get0 "successful_commits" after =
    Py.get0 "successful_commits" before + ErrorHandler.succeeded k /\
  Py.get0 "failed_commits" after =
    Py.get0 "failed_commits" before + ErrorHandler.failed k /\
  Py.get0 "pending_commits" after =
    Py.len (ErrorHandler.pending_file (ErrorHandler.sr_store r)).
Proof.
  intros Hne. cbv zeta.
  pose proof (sweep_signs w s) as (_ & Hs & Hf & _ & Hsum).
  rewrite (process_pending_commits_stats_file w s Hne).
  set (r := ErrorHandler.process_pending_commits cb cfg now w s) in *.
  set (k := ErrorHandler.sr_stats r) in *.
  set (before := ErrorHandler.stats_file s).
  set (n := Py.len (ErrorHandler.pending_file (ErrorHandler.sr_store r))).
  set (m0 := ErrorHandler._update_pending_stats now n before).
  set (m1 := update_stats_if_any now true false (ErrorHandler.succeeded k) m0).
  pose proof (update_stats_if_any_counters true false _ m0 Hs)
    as (Ht1 & Hs1 & Hf1 & Hp1).
  pose proof (update_stats_if_any_counters false true _ m1 Hf)
    as (Ht2 & Hs2 & Hf2 & Hp2).
  fold m1 in Ht1, Hs1, Hf1, Hp1. simpl in *.
  rewrite Ht2, Hs2, Hf2, Hp2, Ht1, Hs1, Hf1, Hp1.
  subst m0. rewrite pending_of_update_pending_stats.
  rewrite !get0_update_pending_stats by (intros [=]).
  repeat split; lia.
Qed.

End SweepTotals.

Lemma sweep_updates_statistics_witness :
  ErrorHandler.pending_file c1_store <> [] /\
  Py.get0 "total_commits"
    (ErrorHandler.stats_file
       (ErrorHandler.sr_store
          (ErrorHandler.process_pending_commits failing c1_cfg (Py.minutes 30)
             tt c1_store))) = 1.
Proof.
  assert (ErrorHandler.pending_file c1_store <> []) as H by discriminate.
  split; [exact H|].
  exact (proj1 (sweep_updates_statistics failing c1_cfg (Py.minutes 30) tt
                  c1_store H)).
Defined.

Section SweepOutcomes.

Context {World : Type}.
Variable cb : World -> ErrorHandler.CommitData -> ErrorHandler.CallbackResult * World.
Variable cfg : Config.
Variable now : Z.

Lemma sweep_loop_all_succeed l st :
  always_succeeds cb ->
  ErrorHandler.ls_new_pending (ErrorHandler.sweep_loop cb cfg now st l) =
  ErrorHandler.ls_new_pending st ++ filter (not_due now) l.
Proof.
  intros Hok. revert st. induction l as [|item l IH]; intros st.
  - simpl. by rewrite app_nil_r.
  - unfold ErrorHandler.sweep_loop in *. simpl foldl. rewrite IH.
    rewrite filter_cons.
    pose proof (Hok (ErrorHandler.ls_world st) (ErrorHandler.commit_data item))
      as Hres.
    unfold ErrorHandler.process_item, not_due, due.
    destruct (cb (ErrorHandler.ls_world st) (ErrorHandler.commit_data item))
      as [res w']. simpl in Hres. subst res.
    case_bool_decide; case_decide; try done; simpl.
    by rewrite <- app_assoc.
Qed.

(** X7: when the callback succeeds on every item it is given, a sweep leaves
    exactly the items that were not yet due, unchanged and in their order,
    and reports every due item as succeeded and removed. *)
Theorem sweep_with_successes_keeps_waiting_items (w : World)
    (s : ErrorHandler.Store) :
  always_succeeds cb ->
  let r := ErrorHandler.process_pending_commits cb cfg now w s in
  ErrorHandler.pending_file (ErrorHandler.sr_store r) =
    filter (not_due now) (ErrorHandler.pending_file s) /\
  Py.len (ErrorHandler.sr_calls r) =
    Py.len (filter (due now) (ErrorHandler.pending_file s)).
Proof.
  intros Hok r. subst r. split.
  - rewrite process_pending_commits_file. by rewrite sweep_loop_all_succeed.
  - rewrite process_pending_commits_calls, sweep_loop_calls. simpl.
    unfold Py.len. by rewrite length_fmap.
Qed.

Lemma sweep_loop_nothing_due l st :
  Forall (not_due now) l ->
  ErrorHandler.sweep_loop cb cfg now st l =
  {| ErrorHandler.ls_world := ErrorHandler.ls_world st;
     ErrorHandler.ls_new_pending := ErrorHandler.ls_new_pending st ++ l;
     ErrorHandler.ls_stats := ErrorHandler.ls_stats st;
     ErrorHandler.ls_log := ErrorHandler.ls_log st;
     ErrorHandler.ls_calls := ErrorHandler.ls_calls st |}.
Proof.
  intros Hall. revert st. induction Hall as [|item l Hnd Hall IH]; intros st.
  - simpl. rewrite app_nil_r. by destruct st.
  - unfold ErrorHandler.sweep_loop in *. simpl foldl. rewrite IH.
    unfold ErrorHandler.process_item, not_due, due in *.
    rewrite bool_decide_eq_false_2 by done. simpl.
    by rewrite <- app_assoc.
Qed.

(** X8: a sweep at a time when no item is due changes nothing: the queue is
    the same, the callback is not called, the world is untouched and nothing
    is logged or counted. *)
Theorem sweep_with_nothing_due_is_idle (w : World) (s : ErrorHandler.Store) :
  Forall (not_due now) (ErrorHandler.pending_file s) ->
  let r := ErrorHandler.process_pending_commits cb cfg now w s in
  ErrorHandler.pending_file (ErrorHandler.sr_store r) = ErrorHandler.pending_file s /\
  ErrorHandler.sr_calls r = [] /\
  ErrorHandler.sr_world r = w /\
  ErrorHandler.sr_stats r = ErrorHandler.no_stats /\
  ErrorHandler.log (ErrorHandler.sr_store r) = ErrorHandler.log s /\
  ErrorHandler.errors_file (ErrorHandler.sr_store r) = ErrorHandler.errors_file s.
Proof.
  intros Hall r. subst r. unfold ErrorHandler.process_pending_commits.
  destruct (ErrorHandler.pending_file s) as [|item rest] eqn:Hp.
  { simpl. by rewrite Hp. }
  rewrite sweep_loop_nothing_due by done. simpl. done.
Qed.

Lemma process_item_descends st item x :
  x ∈ ErrorHandler.ls_new_pending (ErrorHandler.process_item cb cfg now st item) ->
  x ∈ ErrorHandler.ls_new_pending st \/ descends_from x item.
Proof.
  unfold ErrorHandler.process_item, descends_from.
  case_bool_decide;
    [destruct (cb (ErrorHandler.ls_world st) (ErrorHandler.commit_data item))
       as [[[]|] w']; try case_bool_decide|];
    simpl; intros Hin; try (by left);
    apply elem_of_app in Hin as [Hin|Hin]; try (by left);
    apply list_elem_of_singleton in Hin; subst x; right; simpl;
    repeat split; try done; lia.
Qed.

Lemma sweep_loop_descends l st x :
  x ∈ ErrorHandler.ls_new_pending (ErrorHandler.sweep_loop cb cfg now st l) ->
  x ∈ ErrorHandler.ls_new_pending st \/ exists y, y ∈ l /\ descends_from x y.
Proof.
  revert st. induction l as [|item l IH]; intros st Hin; [by left|].
  unfold ErrorHandler.sweep_loop in *. simpl foldl in Hin.
  apply IH in Hin as [Hin|(y & Hy & Hd)].
  - apply process_item_descends in Hin as [Hin|Hd]; [by left|].
    right. exists item. split; [apply elem_of_cons; by left|done].
  - right. exists y. split; [apply elem_of_cons; by right|done].
Qed.

(** X9: a sweep adds nothing to the queue.  The queue it leaves is no longer
    than the one it found, and each item in it is an item of the old queue
    with the same commit data, creation time, error and retry limit, and at
    most one more retry counted. *)
Theorem sweep_only_shrinks_the_queue (w : World) (s : ErrorHandler.Store) :
  let r := ErrorHandler.process_pending_commits cb cfg now w s in
  Py.len (ErrorHandler.pending_file (ErrorHandler.sr_store r))
    <= Py.len (ErrorHandler.pending_file s) /\
  forall x, x ∈ ErrorHandler.pending_file (ErrorHandler.sr_store r) ->
    exists y, y ∈ ErrorHandler.pending_file s /\ descends_from x y.
Proof.
  intros r. split.
  - pose proof (sweep_signs cb cfg now w s) as (Hlen & _ & _ & Hr & _).
    fold r in Hlen, Hr. lia.
  - intros x Hin. subst r. rewrite process_pending_commits_file in Hin.
    apply sweep_loop_descends in Hin as [Hin|Hin]; [|done].
    simpl in Hin. by apply not_elem_of_nil in Hin.
Qed.

End SweepOutcomes.

Lemma sweep_with_successes_witness :
  always_succeeds succeeding /\
  ErrorHandler.pending_file
    (ErrorHandler.sr_store
       (ErrorHandler.process_pending_commits succeeding c1_cfg (Py.minutes 35)
          tt c7_store))
  = filter (not_due (Py.minutes 35)) (ErrorHandler.pending_file c7_store).
Proof.
  assert (always_succeeds succeeding) as H by (intros w d; reflexivity).
  split; [exact H|].
  exact (proj1 (sweep_with_successes_keeps_waiting_items succeeding c1_cfg
                  (Py.minutes 35) tt c7_store H)).
Defined.

Lemma sweep_with_nothing_due_witness :
  Forall (not_due 0) (ErrorHandler.pending_file c7_store) /\
  ErrorHandler.sr_calls
    (ErrorHandler.process_pending_commits failing c1_cfg 0 tt c7_store) = [].
Proof.
  assert (Forall (not_due 0) (ErrorHandler.pending_file c7_store)) as H.
  { repeat (apply List.Forall_cons; [vm_compute; intros Hc; by apply Hc|]).
    apply List.Forall_nil. }
  split; [exact H|].
  exact (proj1 (proj2 (sweep_with_nothing_due_is_idle failing c1_cfg 0 tt
                         c7_store H))).
Defined.

Section Healthy.

Context {World : Type}.
Variable cb : World -> ErrorHandler.CommitData -> ErrorHandler.CallbackResult * World.
Variable cfg : Config.
Hypothesis queue_room : 1 <= max_queue_size cfg.
Hypothesis error_room : 1 <= max_stored_errors cfg.









End Healthy.



(** * Further properties of the scheduler *)






Section JobFacts.

Context {World : Type}.
Variable generate_changes : World -> Scheduler.Outcome Scheduler.Changes * World.
Variable generate_commit_message : World -> Scheduler.Outcome string * World.
Variable create_commit :
  World -> Scheduler.Changes -> string -> Scheduler.Outcome string * World.
Variable cfg : Config.

Abbreviation job :=
  (Scheduler._create_scheduled_commit generate_changes generate_commit_message
     create_commit cfg).

Lemma handle_commit_error_frame now e sched s :
  let s' := Scheduler._handle_commit_error cfg now e sched s in
  Scheduler.stats s' = Scheduler.stats s /\
  Scheduler.jobs s' = Scheduler.jobs s /\
  Scheduler.is_running s' = Scheduler.is_running s /\
  (Scheduler.queue_file s' <> Scheduler.queue_file s ->
   queue_failed_commits cfg = true /\ sched <> None).
Proof.
  unfold Scheduler._handle_commit_error.
  destruct (queue_failed_commits cfg), sched; simpl; repeat split; done.
Qed.

(** X13: a scheduled job ends in one of three ways and never mixes them.  It
    calls [create_commit] at most once; it raises [commits_created] by one
    only together with exactly one call and with the error counter and the
    retry queue untouched; it touches the retry queue only together with one
    more error, and only if queueing is on and it was given its scheduled
    time; and it never changes the job list or the running flag. *)
Theorem job_outcomes_are_exclusive (now : Z) (sched : option Z) (w : World)
    (s : Scheduler.State) :
  let r := job now sched w s in
  let before := Scheduler.stats s in
  let after := Scheduler.stats (Scheduler.jr_state r) in
  (length (Scheduler.jr_commit_calls r) <= 1)%nat /\
  (Scheduler.commits_created after = Scheduler.commits_created before /\
   Scheduler.errors after = Scheduler.errors before /\
   Scheduler.queue_file (Scheduler.jr_state r) = Scheduler.queue_file s /\
   Scheduler.jr_commit_calls r = []
   \/
   Scheduler.commits_created after = Scheduler.commits_created before + 1 /\
   Scheduler.errors after = Scheduler.errors before /\
   Scheduler.last_commit_time after = Some now /\
   Scheduler.queue_file (Scheduler.jr_state r) = Scheduler.queue_file s /\
   length (Scheduler.jr_commit_calls r) = 1%nat
   \/
   Scheduler.commits_created after = Scheduler.commits_created before /\
   Scheduler.errors after = Scheduler.errors before + 1 /\
   (Scheduler.queue_file (Scheduler.jr_state r) <> Scheduler.queue_file s ->
    queue_failed_commits cfg = true /\ sched <> None)) /\
  Scheduler.jobs (Scheduler.jr_state r) = Scheduler.jobs s /\
  Scheduler.is_running (Scheduler.jr_state r) = Scheduler.is_running s.
Proof.
  intros r before after. subst r before after.
  unfold Scheduler._create_scheduled_commit, Scheduler.on_error.
  destruct (generate_changes w) as [[[|c cs]|e] w1];
    [| destruct (generate_commit_message w1) as [[m|e] w2];
       [destruct (create_commit w2 (c :: cs) m) as [[h|e] w3]|] |];
    simpl;
    try match goal with
    | |- context [Scheduler._handle_commit_error cfg now ?e sched ?s0] =>
        pose proof (handle_commit_error_frame now e sched s0) as (-> & -> & -> & Hq);
        simpl in Hq
    end;
    simpl; (split; [lia|]); split; try done;
    first [by left | by (right; left) | by (right; right)].
Qed.

(** X14: when [create_commit] raises and queueing is on, a job that was
    given its scheduled time appends to the retry queue an entry with that
    time, the message of the exception, [retry_count = 0] and the next retry
    one delay after [now]; with room for at least one entry it is the last
    entry of the queue, and the queue respects [max_queue_size]. *)
Theorem failed_job_is_queued (now t : Z) (w w1 w2 w3 : World)
    (c : string * string) (cs : Scheduler.Changes) (m e : string)
    (s : Scheduler.State) :
  generate_changes w = (Scheduler.Ok (c :: cs), w1) ->
  generate_commit_message w1 = (Scheduler.Ok m, w2) ->
  create_commit w2 (c :: cs) m = (Scheduler.Exn e, w3) ->
  queue_failed_commits cfg = true ->
  1 <= max_queue_size cfg ->
  let r := job now (Some t) w s in
  exists queue,
    Scheduler.queue_file (Scheduler.jr_state r) = Some queue /\
    last queue = Some {| Scheduler.scheduled_time := t; Scheduler.error := e;
                         Scheduler.retry_count := 0;
                         Scheduler.next_retry :=
                           now + Py.minutes (retry_delay_minutes cfg) |} /\
    Py.len queue <= max_queue_size cfg /\
    Scheduler.jr_commit_calls r = [(c :: cs, m)] /\
    Scheduler.jr_world r = w3.
Proof.
  intros Hg Hm Hc Hq Hroom r. subst r.
  unfold Scheduler._create_scheduled_commit, Scheduler.on_error,
    Scheduler._handle_commit_error, Scheduler._add_to_retry_queue.
  rewrite Hg, Hm, Hc, Hq. simpl.
  eexists. split; [done|]. rewrite keep_last_spec by done.
  split; [|split; [|done]].
  - unfold last_n. rewrite length_app. simpl.
    rewrite drop_app_le by lia. by rewrite last_snoc.
  - unfold Py.len. rewrite last_n_length. lia.
Qed.

End JobFacts.

Lemma failed_job_is_queued_witness :
  full_producer 0%nat = (Scheduler.Ok [("notes.md"%string, "text"%string)], 1%nat) /\
  exists queue,
    Scheduler.queue_file
      (Scheduler.jr_state
         (Scheduler._create_scheduled_commit full_producer some_message
            refusing_port default_config (tue 15 0) (Some (tue 15 0)) 0%nat
            Scheduler.init)) = Some queue /\
    Py.len queue <= 50.
Proof.
  split; [reflexivity|].
  destruct (failed_job_is_queued full_producer some_message refusing_port
              default_config (tue 15 0) (tue 15 0) 0%nat 1%nat 1%nat 1%nat
              ("notes.md"%string, "text"%string) [] "Update" "push failed"
              Scheduler.init eq_refl eq_refl eq_refl eq_refl
              ltac:(vm_compute; discriminate))
    as (queue & Hq & _ & Hlen & _).
  exists queue. split; [exact Hq | exact Hlen].
Defined.

Lemma ssweeps_queue (cfg : Config) (ts : list Z) (st : Scheduler.State)
    (q : list Scheduler.RetryItem) :
  Scheduler.queue_file st = Some q ->
  Scheduler.queue_file (ssweeps cfg ts st) = Some (retried_all cfg ts q).
Proof.
  revert st q. induction ts as [|t ts IH]; intros st q Hq; [done|].
  unfold ssweeps, retried_all in *. simpl.
  apply IH. by apply scheduler_sweep_queue.
Qed.

Lemma retried_all_nil (cfg : Config) (ts : list Z) : retried_all cfg ts [] = [].
Proof. induction ts as [|t ts IH]; [done|]. unfold retried_all in *. by simpl. Qed.

Lemma retried_all_app (cfg : Config) (ts : list Z)
    (q1 q2 : list Scheduler.RetryItem) :
  retried_all cfg ts (q1 ++ q2) = retried_all cfg ts q1 ++ retried_all cfg ts q2.
Proof.
  revert q1 q2. induction ts as [|t ts IH]; intros q1 q2; [done|].
  unfold retried_all in *. simpl. rewrite bind_app. apply IH.
Qed.

Lemma retried_all_single (cfg : Config) (t : Z) (ts : list Z)
    (item : Scheduler.RetryItem) :
  retried_all cfg (t :: ts) [item] = retried_all cfg ts (retried cfg t item).
Proof.
  unfold retried_all. simpl. by rewrite app_nil_r.
Qed.

Lemma retried_due (cfg : Config) (t : Z) (item : Scheduler.RetryItem) :
  Scheduler.next_retry item <= t ->
  retried cfg t item =
    if bool_decide (Scheduler.retry_count item + 1 < retry_attempts cfg)
    then [Scheduler.with_retry item (Scheduler.retry_count item + 1)
            (t + Py.minutes (retry_delay_minutes cfg))]
    else [].
Proof.
  intros Hd. unfold retried, sdue. by rewrite bool_decide_eq_true_2.
Qed.

Lemma entry_still_queued (cfg : Config) (ts : list Z) (item : Scheduler.RetryItem) :
  Scheduler.retry_count item + Py.len ts < retry_attempts cfg ->
  due_at_each cfg (Scheduler.next_retry item) ts ->
  exists item',
    retried_all cfg ts [item] = [item'] /\
    Scheduler.retry_count item' = Scheduler.retry_count item + Py.len ts /\
    Scheduler.scheduled_time item' = Scheduler.scheduled_time item /\
    Scheduler.error item' = Scheduler.error item.
Proof.
  revert item. induction ts as [|t ts IH]; intros item Hlt Hdue.
  - exists item. unfold Py.len. simpl. repeat split; try done. lia.
  - destruct Hdue as [Hnow Hdue]. unfold Py.len in *. simpl length in Hlt.
    rewrite retried_all_single, retried_due by done.
    rewrite bool_decide_eq_true_2 by lia.
    destruct (IH (Scheduler.with_retry item (Scheduler.retry_count item + 1)
                    (t + Py.minutes (retry_delay_minutes cfg))))
      as (item' & Heq & Hrc & Hst & Herr); simpl; [lia|done|].
    exists item'. rewrite Heq.
    simpl in *. repeat split; try done. lia.
Qed.

Lemma entry_exhausted (cfg : Config) (ts : list Z) (item : Scheduler.RetryItem) :
  Scheduler.retry_count item < retry_attempts cfg ->
  Scheduler.retry_count item + Py.len ts = retry_attempts cfg ->
  due_at_each cfg (Scheduler.next_retry item) ts ->
  retried_all cfg ts [item] = [].
Proof.
  revert item. induction ts as [|t ts IH]; intros item Hlt Hlen Hdue.
  - unfold Py.len in Hlen. simpl in Hlen. lia.
  - destruct Hdue as [Hnow Hdue]. unfold Py.len in *. simpl length in Hlen.
    rewrite retried_all_single, retried_due by done.
    case_bool_decide as Hmore.
    + apply IH; simpl; try done; lia.
    + apply retried_all_nil.
Qed.

(** X15: the scheduler's own sweep gives an entry [retry_attempts] sweeps.
    An entry queued with [retry_count = 0] is still queued, with its time and
    error unchanged, after every smaller number of sweeps that find it due,
    and the sweep number [retry_attempts] removes it; the other entries of
    the queue fare as if it had never been queued.  Without a queue file the
    sweep does nothing. *)
Theorem scheduler_entry_lives_retry_attempts_sweeps (cfg : Config)
    (ts : list Z) (item : Scheduler.RetryItem)
    (q1 q2 : list Scheduler.RetryItem) (st : Scheduler.State) :
  Scheduler.queue_file st = Some (q1 ++ item :: q2) ->
  Scheduler.retry_count item = 0 ->
  1 <= retry_attempts cfg ->
  Py.len ts = retry_attempts cfg ->
  due_at_each cfg (Scheduler.next_retry item) ts ->
  Scheduler.queue_file (ssweeps cfg ts st) =
    Some (retried_all cfg ts q1 ++ retried_all cfg ts q2) /\
  (forall j, (j < length ts)%nat ->
     exists item',
       retried_all cfg (take j ts) [item] = [item'] /\
       Scheduler.retry_count item' = Z.of_nat j /\
       Scheduler.scheduled_time item' = Scheduler.scheduled_time item /\
       Scheduler.error item' = Scheduler.error item) /\
  (forall st', Scheduler.queue_file st' = None -> ssweeps cfg ts st' = st').
Proof.
  intros Hq Hrc Hm Hlen Hdue. split; [|split].
  - rewrite (ssweeps_queue cfg ts st _ Hq).
    change (item :: q2) with ([item] ++ q2).
    rewrite !retried_all_app, entry_exhausted; try done; lia.
  - intros j Hj.
    assert (due_at_each cfg (Scheduler.next_retry item) (take j ts)) as Hdue'.
    { clear -Hdue. revert j Hdue. generalize (Scheduler.next_retry item).
      induction ts as [|t ts IH]; intros next j Hdue; [by destruct j|].
      destruct j as [|j]; [done|]. destruct Hdue as [Hn Hd].
      simpl. split; [done|]. by apply IH. }
    destruct (entry_still_queued cfg (take j ts) item) as (item' & Heq & Hc & Hrest);
      [|done|].
    + unfold Py.len in *. rewrite length_take. lia.
    + exists item'. split; [done|]. split; [|done].
      rewrite Hc, Hrc. unfold Py.len. rewrite length_take. lia.
  - intros st' Hnone. clear -Hnone. induction ts as [|t ts IH]; [done|].
    unfold ssweeps in *. simpl.
    unfold Scheduler._process_pending_commits at 2. by rewrite Hnone.
Qed.

Lemma scheduler_entry_witness :
  Scheduler.queue_file
    (ssweeps default_config [tue 15 30; tue 16 0; tue 16 30]
       (Scheduler._add_to_retry_queue default_config (tue 15 0) (tue 15 0)
          "push failed" Scheduler.init)) = Some [].
Proof.
  refine (proj1 (scheduler_entry_lives_retry_attempts_sweeps default_config
            [tue 15 30; tue 16 0; tue 16 30] an_entry [] []
            (Scheduler._add_to_retry_queue default_config (tue 15 0) (tue 15 0)
               "push failed" Scheduler.init) eq_refl eq_refl _ eq_refl _)).
  - vm_compute. discriminate.
  - vm_compute. repeat split; discriminate.
Defined.

(** X16: [_generate_commit_times] raises in exactly two situations, whatever
    the number of commits asked for (also for none): an hour outside 0..23,
    and a call made after the start of the window at a minute of the hour of
    55 or more. *)
Theorem generation_raises_iff (float_offset : Z -> Z -> Z -> Z) (cfg : Config)
    (now n sh eh : Z) (g : Random.Rng) :
  Scheduler._generate_commit_times float_offset cfg now n sh eh g = None <->
  ~ (0 <= sh <= 23) \/ ~ (0 <= eh <= 23) \/
  (instant now sh < now /\ 55 <= Datetime.minute now).
Proof.
  destruct (decide (0 <= sh <= 23)) as [Hsh|Hsh].
  2: { split; [by left|]. intros _.
       unfold Scheduler._generate_commit_times.
       by rewrite (replace_hour_invalid now sh). }
  destruct (decide (0 <= eh <= 23)) as [Heh|Heh].
  2: { split; [by (right; left)|]. intros _.
       unfold Scheduler._generate_commit_times.
       rewrite (replace_hour_valid now sh) by done.
       by rewrite (replace_hour_invalid now eh). }
  destruct (decide (instant now sh < now /\ 55 <= Datetime.minute now))
    as [[Hlate Hmin]|Hok].
  - split; [by (right; right)|]. intros _.
    unfold Scheduler._generate_commit_times.
    rewrite !replace_hour_valid by done. simpl.
    rewrite (bool_decide_eq_true_2 (instant now sh < now)) by done.
    by rewrite replace_minute_raises.
  - split; [|intros [?|[?|?]]; done].
    intros Hnone.
    assert (exists st,
              (if bool_decide (instant now sh < now)
               then Datetime.replace_minute now (Datetime.minute now + 5)
               else Some (instant now sh)) = Some st) as [st Hst].
    { case_bool_decide as Hlate; [|by eexists].
      exists (now + Py.minutes 5). apply replace_minute_plus5. lia. }
    destruct (generate_from_start float_offset cfg now n sh eh st g Hsh Heh Hst)
      as (times & g' & Hgen & _).
    congruence.
Qed.

Lemma schedule_all_jobs (cfg : Config) (times : list Z) (g : Random.Rng)
    (js : list Scheduler.Job) :
  exists new g',
    Scheduler.schedule_all cfg times g js = Some (js ++ new, g') /\
    length new = length times /\
    Forall (fun j => Scheduler.job_at j =
                       (Datetime.hour (Scheduler.job_scheduled_time j),
                        Datetime.minute (Scheduler.job_scheduled_time j))) new.
Proof.
  revert g js. induction times as [|t times IH]; intros g js.
  - exists [], g. simpl. rewrite app_nil_r. split; [done|]. split; [done|constructor].
  - rewrite schedule_all_cons. destruct (random_delays cfg).
    + destruct (randint_range 0 30 g ltac:(lia)) as (dl & Hdl & _).
      rewrite Hdl. simpl.
      match goal with
      | |- context [Scheduler.schedule_all _ _ ?g1 ?a1] =>
          destruct (IH g1 a1) as (new & g' & Heq & Hlen & Hall)
      end.
      eexists (_ :: new), g'. rewrite Heq, <- app_assoc. simpl.
      split; [done|]. split; [by rewrite Hlen|]. by constructor.
    + simpl.
      match goal with
      | |- context [Scheduler.schedule_all _ _ ?g1 ?a1] =>
          destruct (IH g1 a1) as (new & g' & Heq & Hlen & Hall)
      end.
      eexists (_ :: new), g'. rewrite Heq, <- app_assoc. simpl.
      split; [done|]. split; [by rewrite Hlen|]. by constructor.
Qed.

(** X17: planning only ever adds jobs.  Whenever [_plan_daily_commits]
    returns, the jobs that were scheduled before are all still there, in
    front of the new ones, so that the plans of successive days pile up;
    each new job runs at the hour and minute of its scheduled time, and the
    statistics, the retry queue and the running flags are untouched. *)
Theorem planning_only_adds_jobs (float_offset : Z -> Z -> Z -> Z) (cfg : Config)
    (now : Z) (g g' : Random.Rng) (s s' : Scheduler.State) :
  Scheduler._plan_daily_commits float_offset cfg now g s = Some (s', g') ->
  exists new,
    Scheduler.jobs s' = Scheduler.jobs s ++ new /\
    Forall (fun j => Scheduler.job_at j =
                       (Datetime.hour (Scheduler.job_scheduled_time j),
                        Datetime.minute (Scheduler.job_scheduled_time j))) new /\
    Scheduler.stats s' = Scheduler.stats s /\
    Scheduler.queue_file s' = Scheduler.queue_file s /\
    Scheduler.is_running s' = Scheduler.is_running s /\
    Scheduler.stop_event s' = Scheduler.stop_event s.
Proof.
  unfold Scheduler._plan_daily_commits.
  destruct (Datetime.is_weekend now && negb (weekend_activity cfg)).
  { intros [= <- <-]. exists []. simpl. rewrite app_nil_r.
    repeat split; done. }
  destruct (Random.randint _ _ g) as [[n g1]|]; [|done]. simpl.
  destruct (Scheduler._generate_commit_times _ _ _ _ _ _ g1) as [[times g2]|];
    [|done]. simpl.
  destruct (schedule_all_jobs cfg times g2 (Scheduler.jobs s))
    as (new & g3 & -> & _ & Hall).
  simpl. intros [= <- <-]. exists new. simpl. repeat split; done.
Qed.

Lemma planning_only_adds_jobs_witness :
  exists s' g',
    Scheduler._plan_daily_commits Scheduler.exact_offset c4_cfg_wide (tue 8 0)
      (Random.constant 0) Scheduler.init = Some (s', g') /\
    exists new, Scheduler.jobs s' = Scheduler.jobs Scheduler.init ++ new.
Proof.
  eexists _, _. split; [reflexivity|].
  destruct (planning_only_adds_jobs Scheduler.exact_offset c4_cfg_wide (tue 8 0)
              (Random.constant 0) _ Scheduler.init _ eq_refl)
    as (new & Hjobs & _).
  exists new. exact Hjobs.
Defined.

(** X18: a quota with [min > max] makes the planning raise on every day
    that is planned, since [random.randint] refuses the empty range; on a
    weekend that is skipped the same configuration goes unnoticed: planning
    returns, adds no job and draws no random number. *)
Theorem planning_and_bad_quota (float_offset : Z -> Z -> Z -> Z) (cfg : Config)
    (now : Z) (g : Random.Rng) (s : Scheduler.State) :
  max_commits_per_day cfg < min_commits_per_day cfg ->
  (plans_today cfg now ->
   Scheduler._plan_daily_commits float_offset cfg now g s = None) /\
  (~ plans_today cfg now ->
   exists s',
     Scheduler._plan_daily_commits float_offset cfg now g s = Some (s', g) /\
     Scheduler.jobs s' = Scheduler.jobs s).
Proof.
  intros Hbad. unfold plans_today, Scheduler._plan_daily_commits. split.
  - intros ->. by rewrite randint_raises.
  - intros Hskip. apply not_false_is_true in Hskip. rewrite Hskip.
    eexists. split; done.
Qed.

Lemma planning_and_bad_quota_witness :
  max_commits_per_day (cfg_with_quota 5 1 9 21 true true)
    < min_commits_per_day (cfg_with_quota 5 1 9 21 true true) /\
  plans_today (cfg_with_quota 5 1 9 21 true true) (tue 8 0) /\
  Scheduler._plan_daily_commits Scheduler.exact_offset
    (cfg_with_quota 5 1 9 21 true true) (tue 8 0) (Random.constant 0)
    Scheduler.init = None.
Proof.
  assert (max_commits_per_day (cfg_with_quota 5 1 9 21 true true)
          < min_commits_per_day (cfg_with_quota 5 1 9 21 true true)) as H1
    by reflexivity.
  assert (plans_today (cfg_with_quota 5 1 9 21 true true) (tue 8 0)) as H2
    by reflexivity.
  split; [exact H1|]. split; [exact H2|].
  exact (proj1 (planning_and_bad_quota Scheduler.exact_offset _ (tue 8 0)
                  (Random.constant 0) Scheduler.init H1) H2).
Defined.

(** X19: [create_test_commit] commits whatever the producer yields, also an
    empty set of changes, which a scheduled job would skip.  It calls
    [create_commit] at most once, and returns [True] exactly when the
    producer, the message generator and the commit all returned without an
    exception, in which case the call was made. *)
Theorem test_commit_does_not_skip {World : Type}
    (generate_changes : World -> Scheduler.Outcome Scheduler.Changes * World)
    (generate_commit_message : World -> Scheduler.Outcome string * World)
    (create_commit :
       World -> Scheduler.Changes -> string -> Scheduler.Outcome string * World)
    (w : World) (lg : list LogRecord) :
  let r := Scheduler.create_test_commit generate_changes generate_commit_message
             create_commit w lg in
  (length r.2 <= 1)%nat /\
  (r.1.1.1 = true <->
   exists changes w1 message w2 h w3,
     generate_changes w = (Scheduler.Ok changes, w1) /\
     generate_commit_message w1 = (Scheduler.Ok message, w2) /\
     create_commit w2 changes message = (Scheduler.Ok h, w3)) /\
  (r.1.1.1 = true -> length r.2 = 1%nat) /\
  (forall w1 message w2,
     generate_changes w = (Scheduler.Ok [], w1) ->
     generate_commit_message w1 = (Scheduler.Ok message, w2) ->
     r.2 = [([], message)]).
Proof.
  intros r. subst r. unfold Scheduler.create_test_commit.
  destruct (generate_changes w) as [[changes|e] w1] eqn:Hg; simpl.
  - destruct (generate_commit_message w1) as [[m|e] w2] eqn:Hm; simpl.
    + destruct (create_commit w2 changes m) as [[h|e] w3] eqn:Hc; simpl.
      * split; [lia|]. split; [|split; [done|]].
        -- split; [|done]. intros _. by exists changes, w1, m, w2, h, w3.
        -- intros ? ? ? [= <- <-]. rewrite Hm. by intros [= <- <-].
      * split; [lia|]. split; [|split; [done|]].
        -- split; [done|].
           intros (c' & w1' & m' & w2' & h' & w3' & [= <- <-] & Hm' & Hc').
           rewrite Hm in Hm'. injection Hm' as <- <-. congruence.
        -- intros ? ? ? [= <- <-]. rewrite Hm. by intros [= <- <-].
    + split; [lia|]. split; [|split; [done|]].
      * split; [done|].
        intros (c' & w1' & m' & w2' & h' & w3' & [= <- <-] & Hm' & _).
        congruence.
      * intros ? ? ? [= <- <-]. by rewrite Hm.
  - split; [lia|]. split; [|split; done].
    split; [done|]. intros (c' & w1' & m' & w2' & h' & w3' & [=] & _).
Qed.

(** * Properties of the configuration manager *)

Lemma lookup_assign_eq (k : string) (v : ConfigManager.Value)
    (d : list (string * ConfigManager.Value)) :
  ConfigManager.lookup k (ConfigManager.assign k v d) = Some v.
Proof.
  induction d as [|[k' v'] d IH]; simpl.
  - by rewrite bool_decide_eq_true_2.
  - case_bool_decide as Hk; simpl.
    + by rewrite bool_decide_eq_true_2.
    + by rewrite bool_decide_eq_false_2.
Qed.

Lemma lookup_assign_ne (k k' : string) (v : ConfigManager.Value)
    (d : list (string * ConfigManager.Value)) :
  k <> k' ->
  ConfigManager.lookup k' (ConfigManager.assign k v d) = ConfigManager.lookup k' d.
Proof.
  intros Hne. induction d as [|[k0 v0] d IH]; simpl.
  - by rewrite bool_decide_eq_false_2.
  - case_bool_decide as Hk; simpl.
    + subst k0. by rewrite !bool_decide_eq_false_2.
    + by rewrite IH.
Qed.

Lemma split_dots_not_nil (key : string) : ConfigManager.split_dots key <> [].
Proof.
  destruct key as [|c rest]; simpl; [done|].
  case_bool_decide; [done|]. by destruct (ConfigManager.split_dots rest).
Qed.

Lemma put_walk (keys : list string) (v config config' : ConfigManager.Value) :
  ConfigManager.put keys v config = Some config' ->
  ConfigManager.walk keys config' = Some v.
Proof.
  revert config config'. induction keys as [|k rest IH]; intros config config'.
  - destruct config; simpl; done.
  - destruct config as [| | | |d]; simpl; try done.
    destruct rest as [|k2 rest].
    + intros [= <-]. simpl. by rewrite lookup_assign_eq.
    + destruct (ConfigManager.put (k2 :: rest) v _) as [sub|] eqn:Hsub; [|done].
      intros [= <-]. apply IH in Hsub.
      simpl ConfigManager.walk at 1. rewrite lookup_assign_eq. exact Hsub.
Qed.

(** X20: what [set] stores, [get] returns: after a [set(key, value)] that did
    not raise, [get(key, default)] is [value], for every default -- also when
    the path had to be created on the way. *)
Theorem get_after_set (key : string) (v dflt config config' : ConfigManager.Value) :
  ConfigManager.set key v config = Some config' ->
  ConfigManager.get key dflt config' = v.
Proof.
  unfold ConfigManager.set, ConfigManager.get. intros Hset.
  by rewrite (put_walk _ _ _ _ Hset).
Qed.

Lemma get_after_set_witness :
  exists config',
    ConfigManager.set "commit_settings.active_hours.start" (ConfigManager.VInt 8)
      a_config = Some config' /\
    ConfigManager.get "commit_settings.active_hours.start" ConfigManager.VNone
      config' = ConfigManager.VInt 8.
Proof.
  eexists. split; [reflexivity|].
  apply (get_after_set "commit_settings.active_hours.start"
           (ConfigManager.VInt 8) ConfigManager.VNone a_config).
  reflexivity.
Defined.

Lemma walk_fresh (p : list string) (x : ConfigManager.Value) :
  ConfigManager.walk p (ConfigManager.VDict []) = Some x ->
  p = [] /\ x = ConfigManager.VDict [].
Proof. destruct p as [|k p]; simpl; [by intros [= <-]|done]. Qed.

Lemma put_cons (k k2 : string) (rest : list string)
    (v : ConfigManager.Value) (d : list (string * ConfigManager.Value)) :
  ConfigManager.put (k :: k2 :: rest) v (ConfigManager.VDict d) =
  match ConfigManager.put (k2 :: rest) v
          (default (ConfigManager.VDict []) (ConfigManager.lookup k d)) with
  | Some sub => Some (ConfigManager.VDict (ConfigManager.assign k sub d))
  | None => None
  end.
Proof. reflexivity. Qed.

Lemma put_shape (k : string) (r : list string)
    (v config' : ConfigManager.Value) (d : list (string * ConfigManager.Value)) :
  ConfigManager.put (k :: r) v (ConfigManager.VDict d) = Some config' ->
  exists X,
    config' = ConfigManager.VDict (ConfigManager.assign k X d) /\
    (r <> [] ->
     ConfigManager.put r v
       (default (ConfigManager.VDict []) (ConfigManager.lookup k d)) = Some X).
Proof.
  destruct r as [|k2 r].
  - simpl. intros [= <-]. by exists v.
  - rewrite put_cons.
    destruct (ConfigManager.put (k2 :: r) v _) as [sub|]; [|done].
    intros [= <-]. by exists sub.
Qed.

Lemma put_frame (keys keys' : list string) (v config config' : ConfigManager.Value) :
  diverge keys keys' ->
  ConfigManager.put keys v config = Some config' ->
  ConfigManager.walk keys' config' = ConfigManager.walk keys' config.
Proof.
  intros (p & k & k' & r & r' & -> & -> & Hne).
  revert config config'. induction p as [|a p IH]; intros config config' Hput.
  - destruct config as [| | | |d]; try done.
    apply put_shape in Hput as (X & -> & _).
    simpl. by rewrite lookup_assign_ne.
  - destruct config as [| | | |d]; try done.
    change ((a :: p) ++ k :: r) with (a :: (p ++ k :: r)) in Hput.
    apply put_shape in Hput as (X & -> & Hsub).
    specialize (Hsub ltac:(by destruct p)).
    apply IH in Hsub.
    simpl. rewrite lookup_assign_eq, Hsub.
    destruct (ConfigManager.lookup a d) as [v0|]; simpl; [done|].
    by destruct p.
Qed.

(** X21: [set] touches nothing beside its path: after a [set(key, value)]
    that did not raise, [get] of every key whose path parts from that of
    [key] at some component returns what it returned before. *)
Theorem set_leaves_other_keys (key key' : string)
    (v dflt config config' : ConfigManager.Value) :
  diverge (ConfigManager.split_dots key) (ConfigManager.split_dots key') ->
  ConfigManager.set key v config = Some config' ->
  ConfigManager.get key' dflt config' = ConfigManager.get key' dflt config.
Proof.
  unfold ConfigManager.set, ConfigManager.get. intros Hd Hset.
  by rewrite (put_frame _ _ _ _ _ Hd Hset).
Qed.

Lemma set_leaves_other_keys_witness :
  diverge (ConfigManager.split_dots "commit_settings.max_commits_per_day")
    (ConfigManager.split_dots "commit_settings.min_commits_per_day") /\
  exists config',
    ConfigManager.set "commit_settings.max_commits_per_day" (ConfigManager.VInt 9)
      a_config = Some config' /\
    ConfigManager.get "commit_settings.min_commits_per_day" ConfigManager.VNone
      config' = ConfigManager.VInt 1.
Proof.
  assert (diverge (ConfigManager.split_dots "commit_settings.max_commits_per_day")
            (ConfigManager.split_dots "commit_settings.min_commits_per_day")) as H.
  { exists ["commit_settings"%string], "max_commits_per_day"%string,
      "min_commits_per_day"%string, [], []. repeat split; done. }
  split; [exact H|].
  eexists. split; [reflexivity|].
  rewrite (set_leaves_other_keys "commit_settings.max_commits_per_day"
             "commit_settings.min_commits_per_day" (ConfigManager.VInt 9)
             ConfigManager.VNone a_config _ H eq_refl).
  reflexivity.
Defined.

Lemma put_none_iff (keys : list string) (v config : ConfigManager.Value) :
  keys <> [] ->
  ConfigManager.put keys v config = None <->
  exists p r x, keys = p ++ r /\ r <> [] /\
                ConfigManager.walk p config = Some x /\ ~ is_dict x.
Proof.
  revert config. induction keys as [|k rest IH]; intros config Hne; [done|].
  destruct config as [| | | |d].
  1-4: split; [intros _|done];
       eexists [], (k :: rest), _; (split; [done|]); (split; [done|]);
       (split; [done|]); by intros [? [=]].
  destruct rest as [|k2 rest].
  - simpl. split; [done|].
    intros (p & r & x & Heq & Hr & Hw & Hx).
    destruct p as [|a p].
    + simpl in Hw. injection Hw as <-. destruct Hx. by eexists.
    + destruct p, r; done.
  - rewrite put_cons. specialize (IH (default (ConfigManager.VDict [])
                                        (ConfigManager.lookup k d)) ltac:(done)).
    destruct (ConfigManager.put (k2 :: rest) v _) as [sub|] eqn:Hsub.
    + split; [done|].
      intros (p & r & x & Heq & Hr & Hw & Hx).
      destruct p as [|a p].
      * simpl in Hw. injection Hw as <-. destruct Hx. by eexists.
      * simpl in Heq. injection Heq as <- Heq. simpl in Hw.
        destruct (ConfigManager.lookup k d) as [v0|] eqn:Hl; [|done].
        simpl in IH.
        assert (Some sub = None) as Hn by (apply IH; by exists p, r, x).
        done.
    + split; [intros _|done].
      destruct (proj1 IH eq_refl) as (p & r & x & Heq & Hr & Hw & Hx).
      destruct (ConfigManager.lookup k d) as [v0|] eqn:Hl; simpl in Hw.
      * exists (k :: p), r, x. simpl. rewrite Hl, Heq. done.
      * apply walk_fresh in Hw as [-> ->]. destruct Hx. by eexists.
Qed.

(** X22: [set] raises exactly when its path runs into a value that is not a
    dictionary: some proper prefix of the key, possibly the empty one, leads
    to a scalar.  A path that is missing altogether is created and never
    makes [set] raise. *)
Theorem set_raises_iff (key : string) (v config : ConfigManager.Value) :
  ConfigManager.set key v config = None <->
  exists p r x,
    ConfigManager.split_dots key = p ++ r /\ r <> [] /\
    ConfigManager.walk p config = Some x /\ ~ is_dict x.
Proof. apply put_none_iff, split_dots_not_nil. Qed.

Lemma is_none_spec (v : ConfigManager.Value) :
  ConfigManager.is_none v = true <-> v = ConfigManager.VNone.
Proof. by destruct v. Qed.

Lemma as_int_none (v : ConfigManager.Value) :
  ConfigManager.is_none v = true -> ConfigManager.as_int v = None.
Proof. by destruct v. Qed.

Lemma validate_config_unfold (config : ConfigManager.Value) :
  let lp := ConfigManager.get "repository.local_path" ConfigManager.VNone config in
  let mn := ConfigManager.get "commit_settings.min_commits_per_day"
              ConfigManager.VNone config in
  let mx := ConfigManager.get "commit_settings.max_commits_per_day"
              ConfigManager.VNone config in
  let sh := ConfigManager.get "commit_settings.active_hours.start"
              ConfigManager.VNone config in
  let eh := ConfigManager.get "commit_settings.active_hours.end"
              ConfigManager.VNone config in
  ConfigManager._validate_config config =
  quota ←
    (if ConfigManager.is_none mn || ConfigManager.is_none mx then Some []
     else
       lo ← ConfigManager.as_int mn;
       hi ← ConfigManager.as_int mx;
       Some
         ((if bool_decide (hi < lo)
           then ["min_commits_per_day cannot be greater than max_commits_per_day"%string]
           else []) ++
          (if bool_decide (lo < 0)
           then ["min_commits_per_day cannot be negative"%string] else []) ++
          (if bool_decide (100 < hi)
           then ["max_commits_per_day is too high (max 100)"%string] else [])));
  hours ←
    (if ConfigManager.is_none sh || ConfigManager.is_none eh then Some []
     else
       st ← ConfigManager.as_int sh;
       en ← ConfigManager.as_int eh;
       Some
         ((if bool_decide (0 <= st <= 23) then []
           else ["active_hours.start must be between 0 and 23"%string]) ++
          (if bool_decide (0 <= en <= 23) then []
           else ["active_hours.end must be between 0 and 23"%string]) ++
          (if bool_decide (en <= st)
           then ["active_hours.start must be less than active_hours.end"%string]
           else [])));
  Some
    (((if ConfigManager.is_none lp
       then ["Missing required field: repository.local_path"%string] else []) ++
      (if ConfigManager.is_none mn
       then ["Missing required field: commit_settings.min_commits_per_day"%string]
       else []) ++
      (if ConfigManager.is_none mx
       then ["Missing required field: commit_settings.max_commits_per_day"%string]
       else [])) ++ quota ++ hours).
Proof.
  intros lp mn mx sh eh.
  unfold ConfigManager._validate_config, ConfigManager.required_fields.
  rewrite !bind_cons.
  change (@mbind list _ string string _ []) with (@nil string).
  rewrite app_nil_r. cbn [String.append].
  reflexivity.
Qed.

Lemma quota_block_nil (mn mx : ConfigManager.Value) :
  ConfigManager.is_none mn = false -> ConfigManager.is_none mx = false ->
  (lo ← ConfigManager.as_int mn;
   hi ← ConfigManager.as_int mx;
   Some
     ((if bool_decide (hi < lo)
       then ["min_commits_per_day cannot be greater than max_commits_per_day"%string]
       else []) ++
      (if bool_decide (lo < 0)
       then ["min_commits_per_day cannot be negative"%string] else []) ++
      (if bool_decide (100 < hi)
       then ["max_commits_per_day is too high (max 100)"%string] else [])))
  = Some [] <->
  exists lo hi, ConfigManager.as_int mn = Some lo /\
                ConfigManager.as_int mx = Some hi /\ 0 <= lo <= hi /\ hi <= 100.
Proof.
  intros _ _.
  destruct (ConfigManager.as_int mn) as [lo|]; simpl;
    [|split; [done|by intros (?&?&?&_)]].
  destruct (ConfigManager.as_int mx) as [hi|]; simpl;
    [|split; [done|by intros (?&?&_&?&_)]].
  split.
  - intros Hnil. exists lo, hi.
    repeat case_bool_decide; simpl in Hnil; try done.
    repeat split; try done; lia.
  - intros (? & ? & [= <-] & [= <-] & Hr & Hh).
    rewrite !bool_decide_eq_false_2 by lia. done.
Qed.

Lemma hours_block_nil (sh eh : ConfigManager.Value) :
  (if ConfigManager.is_none sh || ConfigManager.is_none eh then Some []
   else
     st ← ConfigManager.as_int sh;
     en ← ConfigManager.as_int eh;
     Some
       ((if bool_decide (0 <= st <= 23) then []
         else ["active_hours.start must be between 0 and 23"%string]) ++
        (if bool_decide (0 <= en <= 23) then []
         else ["active_hours.end must be between 0 and 23"%string]) ++
        (if bool_decide (en <= st)
         then ["active_hours.start must be less than active_hours.end"%string]
         else [])))
  = Some [] <->
  sh = ConfigManager.VNone \/ eh = ConfigManager.VNone \/
  exists st en, ConfigManager.as_int sh = Some st /\
                ConfigManager.as_int eh = Some en /\ 0 <= st < en /\ en <= 23.
Proof.
  destruct (ConfigManager.is_none sh) eqn:Hs.
  { simpl. split; [|done]. intros _. left. by apply is_none_spec. }
  destruct (ConfigManager.is_none eh) eqn:He.
  { simpl. split; [|done]. intros _. right; left. by apply is_none_spec. }
  simpl.
  assert (sh <> ConfigManager.VNone) as Hs' by (intros ->; done).
  assert (eh <> ConfigManager.VNone) as He' by (intros ->; done).
  destruct (ConfigManager.as_int sh) as [st|]; simpl;
    [|split; [done|by intros [?|[?|(?&?&?&_)]]]].
  destruct (ConfigManager.as_int eh) as [en|]; simpl;
    [|split; [done|by intros [?|[?|(?&?&_&?&_)]]]].
  split.
  - intros Hnil. right; right. exists st, en.
    repeat case_bool_decide; simpl in Hnil; try done.
    repeat split; try done; lia.
  - intros [?|[?|(? & ? & [= <-] & [= <-] & Hr & Hh)]]; try done.
    rewrite !bool_decide_eq_true_2 by lia.
    rewrite bool_decide_eq_false_2 by lia. done.
Qed.

(** X23: [_validate_config] accepts exactly the configurations in which
    [repository.local_path] is set, both quota bounds are numbers with
    [0 <= min <= max <= 100], and the active hours, when both are set, are
    numbers with [0 <= start < end <= 23].  The hours are not checked when
    either of them is missing, and any path is accepted, the placeholder
    included. *)
Theorem validate_config_accepts_iff (config : ConfigManager.Value) :
  ConfigManager._validate_config config = Some [] <->
  ConfigManager.get "repository.local_path" ConfigManager.VNone config
    <> ConfigManager.VNone /\
  quota_ok config /\ hours_ok config.
Proof.
  rewrite validate_config_unfold. unfold quota_ok, hours_ok. cbv zeta.
  generalize (ConfigManager.get "repository.local_path" ConfigManager.VNone config).
  generalize (ConfigManager.get "commit_settings.min_commits_per_day"
                ConfigManager.VNone config).
  generalize (ConfigManager.get "commit_settings.max_commits_per_day"
                ConfigManager.VNone config).
  generalize (ConfigManager.get "commit_settings.active_hours.start"
                ConfigManager.VNone config).
  generalize (ConfigManager.get "commit_settings.active_hours.end"
                ConfigManager.VNone config).
  intros eh sh mx mn lp.
  pose proof (hours_block_nil sh eh) as Hhours.
  destruct (if ConfigManager.is_none sh || ConfigManager.is_none eh
            then _ else _) as [hours|]; simpl.
  2: { split.
       - destruct (if ConfigManager.is_none mn || ConfigManager.is_none mx
                   then _ else _); done.
       - intros (_ & _ & Hh). by apply Hhours in Hh. }
  destruct (ConfigManager.is_none mn) eqn:Hmn.
  { simpl. split.
    - destruct (ConfigManager.is_none lp); done.
    - intros (_ & (lo & hi & Hlo & _) & _).
      by rewrite (as_int_none mn Hmn) in Hlo. }
  destruct (ConfigManager.is_none mx) eqn:Hmx.
  { simpl. split.
    - destruct (ConfigManager.is_none lp); done.
    - intros (_ & (lo & hi & _ & Hhi & _) & _).
      by rewrite (as_int_none mx Hmx) in Hhi. }
  simpl. pose proof (quota_block_nil mn mx Hmn Hmx) as Hquota.
  destruct (_ ≫= _) as [quota|]; simpl.
  2: { split; [done|]. intros (_ & Hq & _). by apply Hquota in Hq. }
  destruct (ConfigManager.is_none lp) eqn:Hlp; simpl.
  { split; [done|]. intros (Hne & _). apply is_none_spec in Hlp. done. }
  split.
  - intros [= Hnil]. apply app_eq_nil in Hnil as [-> ->].
    split; [intros ->; done|]. split; [by apply Hquota|by apply Hhours].
  - intros (_ & Hq & Hh). apply Hquota in Hq. apply Hhours in Hh.
    by injection Hq as ->; injection Hh as ->.
Qed.

Lemma lookup_not_in (k : string) (u : list (string * ConfigManager.Value)) :
  k ∉ u.*1 -> ConfigManager.lookup k u = None.
Proof.
  induction u as [|[k0 v0] u IH]; simpl; [done|].
  intros Hnin. apply not_elem_of_cons in Hnin as [Hne Hnin].
  rewrite bool_decide_eq_false_2 by done. by apply IH.
Qed.

Lemma merge_configs_dicts (d u : list (string * ConfigManager.Value)) :
  ConfigManager._merge_configs (ConfigManager.VDict d) (ConfigManager.VDict u) =
  ConfigManager.VDict
    (foldl (fun result entry =>
              ConfigManager.assign entry.1
                (ConfigManager.merged_entry ConfigManager._merge_configs
                   (ConfigManager.lookup entry.1 result) entry.2) result)
       d u).
Proof. reflexivity. Qed.

Lemma merge_loop_lookup (k : string) (u result : list (string * ConfigManager.Value)) :
  NoDup u.*1 ->
  ConfigManager.lookup k
    (foldl (fun result entry =>
              ConfigManager.assign entry.1
                (ConfigManager.merged_entry ConfigManager._merge_configs
                   (ConfigManager.lookup entry.1 result) entry.2) result)
       result u) =
  match ConfigManager.lookup k u with
  | None => ConfigManager.lookup k result
  | Some uv =>
      Some (ConfigManager.merged_entry ConfigManager._merge_configs
              (ConfigManager.lookup k result) uv)
  end.
Proof.
  revert result. induction u as [|[k0 v0] u IH]; intros result Hnd; [done|].
  simpl in Hnd. apply NoDup_cons in Hnd as [Hnin Hnd].
  cbn [foldl fst snd]. rewrite IH by done.
  change (ConfigManager.lookup k ((k0, v0) :: u))
    with (if bool_decide (k0 = k) then Some v0 else ConfigManager.lookup k u).
  case_bool_decide as Hk.
  - subst k0. rewrite (lookup_not_in k u Hnin). by rewrite lookup_assign_eq.
  - by rewrite lookup_assign_ne.
Qed.

(** X24: [_merge_configs] overrides the default dictionary key by key.  In
    the merged dictionary a key that the user's dictionary lacks has the
    default's value; a key it has carries the user's value, except that two
    dictionaries under the same key are merged in turn. *)
Theorem merge_configs_lookup (k : string)
    (d u : list (string * ConfigManager.Value)) :
  NoDup u.*1 ->
  exists m,
    ConfigManager._merge_configs (ConfigManager.VDict d) (ConfigManager.VDict u)
      = ConfigManager.VDict m /\
    ConfigManager.lookup k m =
      match ConfigManager.lookup k u, ConfigManager.lookup k d with
      | None, dv => dv
      | Some (ConfigManager.VDict ud), Some (ConfigManager.VDict dd) =>
          Some (ConfigManager._merge_configs (ConfigManager.VDict dd)
                  (ConfigManager.VDict ud))
      | Some uv, _ => Some uv
      end.
Proof.
  intros Hnd. eexists. split; [apply merge_configs_dicts|].
  rewrite merge_loop_lookup by done.
  destruct (ConfigManager.lookup k u) as [uv|]; [|done].
  unfold ConfigManager.merged_entry.
  destruct uv, (ConfigManager.lookup k d) as [[]|]; done.
Qed.

Lemma merge_configs_lookup_witness :
  NoDup [("max_commits_per_day"%string, ConfigManager.VInt 3)].*1 /\
  exists m,
    ConfigManager._merge_configs
      (ConfigManager.VDict [("min_commits_per_day"%string, ConfigManager.VInt 1);
                            ("max_commits_per_day"%string, ConfigManager.VInt 5)])
      (ConfigManager.VDict [("max_commits_per_day"%string, ConfigManager.VInt 3)])
    = ConfigManager.VDict m /\
    ConfigManager.lookup "max_commits_per_day" m = Some (ConfigManager.VInt 3).
Proof.
  assert (NoDup [("max_commits_per_day"%string, ConfigManager.VInt 3)].*1)
    as H by (simpl; apply NoDup_singleton).
  split; [exact H|].
  exact (merge_configs_lookup "max_commits_per_day"
           [("min_commits_per_day"%string, ConfigManager.VInt 1);
            ("max_commits_per_day"%string, ConfigManager.VInt 5)]
           [("max_commits_per_day"%string, ConfigManager.VInt 3)] H).
Defined.

Example merged_settings :
  ConfigManager.get "commit_settings.max_commits_per_day" ConfigManager.VNone
    (ConfigManager._merge_configs a_config a_user_config) = ConfigManager.VInt 3 /\
  ConfigManager.get "commit_settings.min_commits_per_day" ConfigManager.VNone
    (ConfigManager._merge_configs a_config a_user_config) = ConfigManager.VInt 1 /\
  ConfigManager.get "commit_settings.active_hours.start" ConfigManager.VNone
    (ConfigManager._merge_configs a_config a_user_config) = ConfigManager.VInt 8 /\
  ConfigManager._validate_config
    (ConfigManager._merge_configs a_config a_user_config) = Some [].
Proof. repeat split; reflexivity. Qed.
